(** * Xendit payment plugin: webhook reconciliation

    A shallow embedding of [src/plugins/xendit]: the callback verifier of
    [xendit.service.ts], the payment method handler of [xendit.handler.ts]
    and the webhook of [xendit.controller.ts], followed by the properties
    of the specification stated over them.

    Conventions.
    - A value of type [string | undefined] is an [option string].
    - The result of [verifyCallback] is not a boolean in the source (it is
      [undefined], a number or a boolean), so it is kept as a [Js.value]
      with JavaScript's truthiness.
    - An [async] method is the computation it awaits: a rejected promise is
      a thrown exception.
    - The webhook talks to injected services.  Every method of theirs is
      called at most once per notification, so each is given by the answer
      it returns for its arguments; the calls themselves, the log lines and
      the HTTP response are recorded, in order, in a trace of events.
    - The Order Store, the repository and the context factory are taken to
      answer.  Only the verification sits in a [try], so it alone is given
      the possibility to throw. *)

From Stdlib Require Import String Ascii List ZArith Bool Lia.
From Stdlib Require Import DecimalString.
Import ListNotations.
Local Open Scope string_scope.

(** ** JavaScript values and operators *)

Module Js.

Inductive value : Type :=
| Undefined
| Number (n : Z)
| Boolean (b : bool).

(** ToBoolean on the values above. *)
Definition truthy (v : value) : bool :=
  match v with
  | Undefined => false
  | Number n => negb (n =? 0)%Z
  | Boolean b => b
  end.

(** [a && b]: the left operand when it is falsy, the right one otherwise. *)
Definition and (a b : value) : value :=
  if truthy a then b else a.

(** ToBoolean on a [string | undefined]: only a non-empty string is truthy. *)
Definition truthy_str (s : option string) : bool :=
  match s with
  | None => false
  | Some s => negb (s =? "")
  end.

(** [s?.length] *)
Definition length (s : option string) : value :=
  match s with
  | None => Undefined
  | Some s => Number (Z.of_nat (String.length s))
  end.

(** [a !== b] on [string | undefined]. *)
Definition strict_neq (a b : option string) : bool :=
  match a, b with
  | None, None => false
  | Some x, Some y => negb (x =? y)
  | _, _ => true
  end.

(** A [string | undefined] inside a template literal. *)
Definition show (s : option string) : string :=
  match s with
  | None => "undefined"
  | Some s => s
  end.

(** [s.includes(c)] for a one-character [c]. *)
Fixpoint includes (c : ascii) (s : string) : bool :=
  match s with
  | EmptyString => false
  | String c' rest => Ascii.eqb c' c || includes c rest
  end.

(** [s.split(sep)] for a one-character separator. *)
Fixpoint split (sep : ascii) (s : string) : list string :=
  match s with
  | EmptyString => [EmptyString]
  | String c rest =>
      if Ascii.eqb c sep then EmptyString :: split sep rest
      else match split sep rest with
           | piece :: pieces => String c piece :: pieces
           | [] => [String c EmptyString]
           end
  end.

End Js.

(** ** types.ts *)

Module XenditPluginOptions.
Record t : Type := {
  apiKey : string;
  callbackToken : option string;
  invoiceDuration : option Z;
  paymentMethods : option (list string)
}.
End XenditPluginOptions.

(** The notification body.  Dates arrive as JSON strings; [amount] is only
    carried along. *)
Module XenditCallbackRequest.
Record t : Type := {
  id : string;
  amount : Z;
  status : string;
  created : string;
  is_high : bool;
  updated : string;
  user_id : string;
  currency : string;
  description : string;
  external_id : string;
  payer_email : string;
  merchant_name : string
}.
End XenditCallbackRequest.

Module RequestWithRawBody.
Record t : Type := {
  body : option XenditCallbackRequest.t;
  rawBody : string
}.
End RequestWithRawBody.

(** ** xendit.service.ts *)

Module XenditService.

(** [this.options?.callbackToken]; the options are whatever
    [XenditPlugin.options] holds, [undefined] before [init]. *)
Definition configured (options : option XenditPluginOptions.t) : option string :=
  match options with
  | None => None
  | Some o => XenditPluginOptions.callbackToken o
  end.

Definition verifyCallback (options : option XenditPluginOptions.t)
    (callbackToken : option string) : Js.value :=
  Js.and (Js.length (configured options))
         (Js.Boolean (Js.strict_neq (configured options) callbackToken)).

Definition createRefund (paymentIntentId : string) (amount : Z) : Js.value :=
  Js.Undefined.

End XenditService.

(** ** xendit.handler.ts *)

Module Payment.
Record t : Type := {
  transactionId : string;
  method : string
}.
End Payment.

Module CreateRefundResult.
Inductive RefundState : Type := Failed | Pending | Settled.
Record t : Type := {
  state : RefundState;
  transactionId : string
}.
End CreateRefundResult.

(** A payment's metadata: a JSON object, as its properties in order. *)
Module Metadata.

Inductive value : Type :=
| Str (s : string)
| Num (n : Z)
| Bool (b : bool).

Definition t : Type := list (string * value).

(** [o.key], [None] for [undefined]. *)
Fixpoint get (key : string) (o : t) : option value :=
  match o with
  | [] => None
  | (k, v) :: rest => if k =? key then Some v else get key rest
  end.

(** The notification body as the object the webhook hands over as
    metadata: the properties of [XenditCallbackRequest]. *)
Definition ofNotification (p : XenditCallbackRequest.t) : t :=
  [ ("id", Str (XenditCallbackRequest.id p));
    ("amount", Num (XenditCallbackRequest.amount p));
    ("status", Str (XenditCallbackRequest.status p));
    ("created", Str (XenditCallbackRequest.created p));
    ("is_high", Bool (XenditCallbackRequest.is_high p));
    ("updated", Str (XenditCallbackRequest.updated p));
    ("user_id", Str (XenditCallbackRequest.user_id p));
    ("currency", Str (XenditCallbackRequest.currency p));
    ("description", Str (XenditCallbackRequest.description p));
    ("external_id", Str (XenditCallbackRequest.external_id p));
    ("payer_email", Str (XenditCallbackRequest.payer_email p));
    ("merchant_name", Str (XenditCallbackRequest.merchant_name p)) ].

End Metadata.

Module CreatePaymentResult.
Inductive PaymentState : Type := Declined | Authorized | Settled.
Record t : Type := {
  amount : Z;
  state : PaymentState;
  transactionId : option Metadata.value;
  metadata : Metadata.t
}.
End CreatePaymentResult.

Module xenditPaymentMethodHandler.

Definition code : string := "xendit".

Definition createPayment {Ctx Ord Args : Type}
    (ctx : Ctx) (_order : Ord) (amount : Z) (___ : Args)
    (metadata : Metadata.t) : CreatePaymentResult.t :=
  {| CreatePaymentResult.amount := amount;
     CreatePaymentResult.state := CreatePaymentResult.Settled;
     CreatePaymentResult.transactionId :=
       Metadata.get "xenditPaymentId" metadata;
     CreatePaymentResult.metadata := metadata |}.

Definition createRefund {Ctx Input Ord Args : Type}
    (_ctx : Ctx) (_input : Input) (_amount : Z) (_order : Ord)
    (payment : Payment.t) (_args : Args) : CreateRefundResult.t :=
  {| CreateRefundResult.state := CreateRefundResult.Settled;
     CreateRefundResult.transactionId := Payment.transactionId payment |}.

End xenditPaymentMethodHandler.

(** ** The host platform's entities, as far as the webhook looks at them *)

Inductive ID : Type :=
| IdString (s : string)
| IdNumber (n : Z).

Module Order.
Record t : Type := {
  id : ID;
  code : string;
  state : string
}.
End Order.

Module ConfigurableOperation.
Record t : Type := { code : string }.
End ConfigurableOperation.

Module PaymentMethod.
Record t : Type := {
  id : ID;
  code : string;
  handler : ConfigurableOperation.t
}.
End PaymentMethod.

Module PaymentInput.
Record t : Type := {
  method : string;
  metadata : XenditCallbackRequest.t
}.
End PaymentInput.

(** [Order | OrderStateTransitionError] *)
Inductive TransitionResult : Type :=
| Transitioned (order : Order.t)
| OrderStateTransitionError (message : string).

(** [ErrorResultUnion<AddPaymentToOrderResult, Order>] *)
Inductive AddPaymentResult : Type :=
| PaymentAdded (order : Order.t)
| AddPaymentError (errorCode message : string).

Module CreateArgs.
Record t : Type := {
  apiType : string;
  channelOrToken : string;
  req : RequestWithRawBody.t;
  languageCode : string
}.
End CreateArgs.

Module HttpStatus.
Definition OK : Z := 200.
Definition BAD_REQUEST : Z := 400.
End HttpStatus.

Module LanguageCode.
Definition en : string := "en".
End LanguageCode.

(** Thrown values. *)
Inductive Exn : Type :=
| Error (message : string)
| InternalServerError (message : string).

Definition message (e : Exn) : string :=
  match e with
  | Error m => m
  | InternalServerError m => m
  end.

(** ** xendit.controller.ts *)

Module XenditController.

Definition missingHeaderErrorMessage : string :=
  "Missing xendit-signature header".
Definition signatureErrorMessage : string :=
  "Error verifying Xendit webhook signature".
Definition noPaymentIntentErrorMessage : string :=
  "No payment intent in the event payload".

(** The second argument of a [console.log]. *)
Inductive LogArg : Type :=
| LogString (s : option string)
| LogPayment (p : XenditCallbackRequest.t).

Section Controller.

(** The host's request context is opaque to the plugin. *)
Variable RequestContext : Type.

(** [loggerCtx] comes from [./constant], which is not part of the
    sources at hand. *)
Variable loggerCtx : string.

(** *** Injected services *)

Record TransactionalConnection : Type := {
  (** [getRepository(ctx, PaymentMethod).find()] *)
  find : RequestContext -> list PaymentMethod.t
}.

Record OrderService : Type := {
  findOneByCode : RequestContext -> string -> option Order.t;
  transitionToState : RequestContext -> ID -> string -> TransitionResult;
  addPaymentToOrder :
    RequestContext -> ID -> PaymentInput.t -> AddPaymentResult
}.

Record XenditServiceApi : Type := {
  verifyCallback : option string -> Exn + Js.value
}.

Record RequestContextService : Type := {
  create : CreateArgs.t -> RequestContext
}.

Record t : Type := {
  connection : TransactionalConnection;
  orderService : OrderService;
  xenditService : XenditServiceApi;
  requestContextService : RequestContextService
}.

(** *** What a run of the webhook does, in order *)

Inductive Event : Type :=
| LoggerError (msg ctx : string)
| LoggerInfo (msg ctx : string)
| ConsoleLog (label : string) (arg : LogArg)
| ResponseSend (status : Z) (body : string)
| VerifyCallback (callbackToken : option string)
| CreateContext (args : CreateArgs.t)
| FindOneByCode (ctx : RequestContext) (orderCode : string)
| TransitionToState (ctx : RequestContext) (orderId : ID) (state : string)
| FindPaymentMethods (ctx : RequestContext)
| AddPaymentToOrder (ctx : RequestContext) (orderId : ID)
    (input : PaymentInput.t).

(** A computation appends to the trace and returns or throws. *)
Definition M (A : Type) : Type := list Event -> (Exn + A) * list Event.

Definition ret {A} (a : A) : M A := fun tr => (inr a, tr).

Definition bind {A B} (c : M A) (k : A -> M B) : M B :=
  fun tr =>
    match c tr with
    | (inl e, tr') => (inl e, tr')
    | (inr a, tr') => k a tr'
    end.

Definition throw {A} (e : Exn) : M A := fun tr => (inl e, tr).

Definition emit (ev : Event) : M unit := fun tr => (inr tt, (tr ++ [ev])%list).

(** A call to a service: recorded, then its answer or its exception. *)
Definition invoke {A} (ev : Event) (answer : Exn + A) : M A :=
  fun tr => (answer, (tr ++ [ev])%list).

Definition call {A} (ev : Event) (answer : A) : M A :=
  invoke ev (inr answer).

(** The [try] block: an exception becomes a value for the [catch]. *)
Definition attempt {A} (c : M A) : M (Exn + A) :=
  fun tr => let (r, tr') := c tr in (inr r, tr').

Definition run {A} (c : M A) : (Exn + A) * list Event := c [].

Notation "x <- c ;; k" := (bind c (fun x => k))
  (at level 61, c at next level, right associativity).
Notation "c ;; k" := (bind c (fun _ => k))
  (at level 61, right associativity).

Definition respond (status : Z) (body : string) : M unit :=
  emit (ResponseSend status body).

(** *** Private methods *)

Definition createContext (this : t) (channelToken : string)
    (req : RequestWithRawBody.t) : M RequestContext :=
  let args := {| CreateArgs.apiType := "admin";
                 CreateArgs.channelOrToken := channelToken;
                 CreateArgs.req := req;
                 CreateArgs.languageCode := LanguageCode.en |} in
  call (CreateContext args) (create (requestContextService this) args).

Definition isXendit (m : PaymentMethod.t) : bool :=
  ConfigurableOperation.code (PaymentMethod.handler m)
    =? xenditPaymentMethodHandler.code.

Definition getPaymentMethod (this : t) (ctx : RequestContext)
    : M PaymentMethod.t :=
  methods <- call (FindPaymentMethods ctx) (find (connection this) ctx) ;;
  match List.find isXendit methods with
  | None =>
      throw (InternalServerError
               ("[" ++ loggerCtx ++ "] Could not find Xendit PaymentMethod"))
  | Some method => ret method
  end.

(** *** The webhook *)

(** Lines 101-124: resolve the payment method, add the payment, answer. *)
Definition recordPayment (this : t) (ctx : RequestContext)
    (order : Order.t) (orderCode : string)
    (xenditPayment : XenditCallbackRequest.t) : M unit :=
  paymentMethod <- getPaymentMethod this ctx ;;
  let input := {| PaymentInput.method := PaymentMethod.code paymentMethod;
                  PaymentInput.metadata := xenditPayment |} in
  addPaymentToOrderResult <-
    call (AddPaymentToOrder ctx (Order.id order) input)
         (addPaymentToOrder (orderService this) ctx (Order.id order) input) ;;
  match addPaymentToOrderResult with
  | AddPaymentError _ msg =>
      emit (LoggerError
              ("Error adding payment to order " ++ orderCode ++ ": " ++ msg)
              loggerCtx)
  | PaymentAdded _ =>
      emit (LoggerInfo
              ("Xendit payment id " ++ XenditCallbackRequest.id xenditPayment
                 ++ " added to order " ++ orderCode)
              loggerCtx) ;;
      respond HttpStatus.OK "Ok"
  end.

(** Lines 74-99, then [recordPayment]. *)
Definition reconcile (this : t) (request : RequestWithRawBody.t)
    (xenditPayment : XenditCallbackRequest.t) : M unit :=
  let channelToken :=
    List.hd EmptyString
      (Js.split "_" (XenditCallbackRequest.description xenditPayment)) in
  let orderCode := XenditCallbackRequest.external_id xenditPayment in
  ctx <- createContext this channelToken request ;;
  found <- call (FindOneByCode ctx orderCode)
                (findOneByCode (orderService this) ctx orderCode) ;;
  match found with
  | None =>
      throw (Error ("Unable to find order " ++ orderCode
                      ++ ", unable to settle payment "
                      ++ XenditCallbackRequest.id xenditPayment ++ "!"))
  | Some order =>
      if negb (Order.state order =? "ArrangingPayment") then
        transitionToStateResult <-
          call (TransitionToState ctx (Order.id order) "ArrangingPayment")
               (transitionToState (orderService this) ctx (Order.id order)
                  "ArrangingPayment") ;;
        match transitionToStateResult with
        | OrderStateTransitionError msg =>
            emit (LoggerError
                    ("Error transitioning order " ++ orderCode
                       ++ " to ArrangingPayment state: " ++ msg)
                    loggerCtx)
        | Transitioned _ =>
            recordPayment this ctx order orderCode xenditPayment
        end
      else recordPayment this ctx order orderCode xenditPayment
  end.

Definition webhook (this : t) (callbackToken : option string)
    (request : RequestWithRawBody.t) : M unit :=
  if negb (Js.truthy_str callbackToken) then
    emit (LoggerError missingHeaderErrorMessage loggerCtx) ;;
    respond HttpStatus.BAD_REQUEST missingHeaderErrorMessage
  else
    verification <-
      attempt (invoke (VerifyCallback callbackToken)
                      (verifyCallback (xenditService this) callbackToken)) ;;
    match verification with
    | inl e =>
        emit (LoggerError
                (signatureErrorMessage ++ " " ++ Js.show callbackToken
                   ++ ": " ++ message e)
                loggerCtx) ;;
        respond HttpStatus.BAD_REQUEST signatureErrorMessage
    | inr _ =>
        emit (ConsoleLog "x-callback-token : " (LogString callbackToken)) ;;
        match RequestWithRawBody.body request with
        | None =>
            emit (LoggerError noPaymentIntentErrorMessage loggerCtx) ;;
            respond HttpStatus.BAD_REQUEST noPaymentIntentErrorMessage
        | Some xenditPayment =>
            emit (ConsoleLog "XenditPayment : " (LogPayment xenditPayment)) ;;
            reconcile this request xenditPayment
        end
    end.

(** *** Reading a trace *)

Definition isTransition (ev : Event) : bool :=
  match ev with TransitionToState _ _ _ => true | _ => false end.

Definition isAddPayment (ev : Event) : bool :=
  match ev with AddPaymentToOrder _ _ _ => true | _ => false end.

Definition isOrderStore (ev : Event) : bool :=
  match ev with
  | FindOneByCode _ _ | TransitionToState _ _ _ | AddPaymentToOrder _ _ _ =>
      true
  | _ => false
  end.

Definition isServiceCall (ev : Event) : bool :=
  match ev with
  | VerifyCallback _ | CreateContext _ | FindOneByCode _ _
  | TransitionToState _ _ _ | FindPaymentMethods _
  | AddPaymentToOrder _ _ _ => true
  | _ => false
  end.

Definition isResponse (ev : Event) : bool :=
  match ev with ResponseSend _ _ => true | _ => false end.

Definition transitionCalls (tr : list Event) : list Event :=
  filter isTransition tr.
Definition addPaymentCalls (tr : list Event) : list Event :=
  filter isAddPayment tr.
Definition orderStoreCalls (tr : list Event) : list Event :=
  filter isOrderStore tr.
Definition serviceCalls (tr : list Event) : list Event :=
  filter isServiceCall tr.
Definition responses (tr : list Event) : list Event :=
  filter isResponse tr.

End Controller.

Arguments find {RequestContext}.
Arguments findOneByCode {RequestContext}.
Arguments transitionToState {RequestContext}.
Arguments addPaymentToOrder {RequestContext}.
Arguments create {RequestContext}.
Arguments connection {RequestContext}.
Arguments orderService {RequestContext}.
Arguments xenditService {RequestContext}.
Arguments requestContextService {RequestContext}.
Arguments LoggerError {RequestContext}.
Arguments LoggerInfo {RequestContext}.
Arguments ConsoleLog {RequestContext}.
Arguments ResponseSend {RequestContext}.
Arguments VerifyCallback {RequestContext}.
Arguments CreateContext {RequestContext}.
Arguments FindOneByCode {RequestContext}.
Arguments TransitionToState {RequestContext}.
Arguments FindPaymentMethods {RequestContext}.
Arguments AddPaymentToOrder {RequestContext}.
Arguments run {RequestContext A}.
Arguments webhook {RequestContext}.
Arguments reconcile {RequestContext}.
Arguments recordPayment {RequestContext}.
Arguments getPaymentMethod {RequestContext}.
Arguments createContext {RequestContext}.
Arguments isTransition {RequestContext}.
Arguments isAddPayment {RequestContext}.
Arguments isOrderStore {RequestContext}.
Arguments isServiceCall {RequestContext}.
Arguments isResponse {RequestContext}.
Arguments transitionCalls {RequestContext}.
Arguments addPaymentCalls {RequestContext}.
Arguments orderStoreCalls {RequestContext}.
Arguments serviceCalls {RequestContext}.
Arguments responses {RequestContext}.

End XenditController.

(** ** xendit.plugin.ts: the controller wired to the real service *)

Module XenditPlugin.

Import XenditController.

(** The provider for [XenditService]: [verifyCallback] is [async] and has
    no [throw], so its promise always resolves. *)
Definition xenditService (options : option XenditPluginOptions.t)
    : XenditServiceApi :=
  {| verifyCallback :=
       fun callbackToken =>
         inr (XenditService.verifyCallback options callbackToken) |}.

Definition controller {RequestContext : Type}
    (options : option XenditPluginOptions.t)
    (connection : TransactionalConnection RequestContext)
    (orderService : OrderService RequestContext)
    (requestContextService : RequestContextService RequestContext)
    : XenditController.t RequestContext :=
  {| XenditController.connection := connection;
     XenditController.orderService := orderService;
     XenditController.xenditService := xenditService options;
     XenditController.requestContextService := requestContextService |}.

End XenditPlugin.

(** ** One notification, from the HTTP request to the trace *)

Module Webhook.

Import XenditController.

Section Handle.

Variable RequestContext : Type.
Variable loggerCtx : string.
Variable this : XenditController.t RequestContext.

(** A controller handling one request: what it returns or throws, and
    everything it did. *)
Definition handle (callbackToken : option string)
    (request : RequestWithRawBody.t)
    : (Exn + unit) * list (Event RequestContext) :=
  run (webhook loggerCtx this callbackToken request).

(** What [createContext] passes to the context factory. *)
Definition createArgs (request : RequestWithRawBody.t)
    (xenditPayment : XenditCallbackRequest.t) : CreateArgs.t :=
  {| CreateArgs.apiType := "admin";
     CreateArgs.channelOrToken :=
       List.hd EmptyString
         (Js.split "_" (XenditCallbackRequest.description xenditPayment));
     CreateArgs.req := request;
     CreateArgs.languageCode := LanguageCode.en |}.

(** The context the webhook creates for a notification. *)
Definition contextOf (request : RequestWithRawBody.t)
    (xenditPayment : XenditCallbackRequest.t) : RequestContext :=
  create (requestContextService this) (createArgs request xenditPayment).

(** The payment method [getPaymentMethod] resolves, if any. *)
Definition resolvedMethod (ctx : RequestContext) : option PaymentMethod.t :=
  List.find isXendit (find (connection this) ctx).

(** The input of the payment the webhook adds. *)
Definition paymentInput (method : PaymentMethod.t)
    (xenditPayment : XenditCallbackRequest.t) : PaymentInput.t :=
  {| PaymentInput.method := PaymentMethod.code method;
     PaymentInput.metadata := xenditPayment |}.

(** The events of a run up to the creation of the context. *)
Definition preamble (callbackToken : option string)
    (request : RequestWithRawBody.t) (xenditPayment : XenditCallbackRequest.t)
    : list (Event RequestContext) :=
  [ VerifyCallback callbackToken;
    ConsoleLog "x-callback-token : " (LogString callbackToken);
    ConsoleLog "XenditPayment : " (LogPayment xenditPayment);
    CreateContext (createArgs request xenditPayment) ].

End Handle.

Arguments handle {RequestContext}.
Arguments contextOf {RequestContext}.
Arguments resolvedMethod {RequestContext}.
Arguments preamble {RequestContext}.

End Webhook.

(** ** A concrete deployment, for running the model *)

Module Scenario.

Import XenditController.

Definition notification : XenditCallbackRequest.t :=
  {| XenditCallbackRequest.id := "inv-1";
     XenditCallbackRequest.amount := 150000;
     XenditCallbackRequest.status := "PAID";
     XenditCallbackRequest.created := "2023-01-01T00:00:00.000Z";
     XenditCallbackRequest.is_high := false;
     XenditCallbackRequest.updated := "2023-01-01T00:05:00.000Z";
     XenditCallbackRequest.user_id := "user-1";
     XenditCallbackRequest.currency := "IDR";
     XenditCallbackRequest.description := "tenant1_55";
     XenditCallbackRequest.external_id := "ORD123";
     XenditCallbackRequest.payer_email := "payer@example.com";
     XenditCallbackRequest.merchant_name := "Shop" |}.

Definition request : RequestWithRawBody.t :=
  {| RequestWithRawBody.body := Some notification;
     RequestWithRawBody.rawBody := "" |}.

Definition emptyRequest : RequestWithRawBody.t :=
  {| RequestWithRawBody.body := None; RequestWithRawBody.rawBody := "" |}.

Definition options (callbackToken : option string) : option XenditPluginOptions.t :=
  Some {| XenditPluginOptions.apiKey := "key";
          XenditPluginOptions.callbackToken := callbackToken;
          XenditPluginOptions.invoiceDuration := None;
          XenditPluginOptions.paymentMethods := None |}.

Definition order (state : string) : Order.t :=
  {| Order.id := IdNumber 55; Order.code := "ORD123"; Order.state := state |}.

Definition xenditMethod : PaymentMethod.t :=
  {| PaymentMethod.id := IdNumber 1;
     PaymentMethod.code := "xendit-payment";
     PaymentMethod.handler := {| ConfigurableOperation.code := "xendit" |} |}.

Definition otherMethod : PaymentMethod.t :=
  {| PaymentMethod.id := IdNumber 2;
     PaymentMethod.code := "cash";
     PaymentMethod.handler := {| ConfigurableOperation.code := "dummy" |} |}.

(** The request context is the channel token it was made for. *)
Definition contexts : RequestContextService string :=
  {| create := CreateArgs.channelOrToken |}.

Definition methods (configured : list PaymentMethod.t)
    : TransactionalConnection string :=
  {| find := fun _ => configured |}.

(** An Order Store holding at most one order, with fixed answers to the
    transition and to the payment. *)
Definition store (held : option Order.t) (transition : TransitionResult)
    (payment : AddPaymentResult) : OrderService string :=
  {| findOneByCode := fun _ orderCode =>
       match held with
       | Some o => if Order.code o =? orderCode then Some o else None
       | None => None
       end;
     transitionToState := fun _ _ _ => transition;
     addPaymentToOrder := fun _ _ _ => payment |}.

Definition accepted : TransitionResult := Transitioned (order "ArrangingPayment").
Definition settled : AddPaymentResult := PaymentAdded (order "PaymentSettled").
Definition refused : TransitionResult :=
  OrderStateTransitionError "Cannot transition Order from Cancelled to ArrangingPayment".
Definition declined : AddPaymentResult :=
  AddPaymentError "PAYMENT_DECLINED_ERROR" "The payment was declined".

(** The plugin deployed with a callback token, over these services. *)
Definition deployment (secret : option string)
    (configured : list PaymentMethod.t) (held : option Order.t)
    (transition : TransitionResult) (payment : AddPaymentResult)
    : XenditController.t string :=
  XenditPlugin.controller (options secret) (methods configured)
    (store held transition payment) contexts.

(** A service whose verification throws. *)
Definition throwingService : XenditServiceApi :=
  {| verifyCallback := fun _ => inl (Error "bad token") |}.

Definition throwingDeployment : XenditController.t string :=
  {| XenditController.connection := methods [xenditMethod];
     XenditController.orderService :=
       store (Some (order "AddingItems")) accepted settled;
     XenditController.xenditService := throwingService;
     XenditController.requestContextService := contexts |}.

End Scenario.


(** ** xendit.service.ts: invoices *)

Module Customer.
Record t : Type := {
  id : ID;
  emailAddress : string
}.
End Customer.

(** The Order entity with what the service reads of it besides the fields
    of [Order.t]: its total and its customer relation, when loaded. *)
Module OrderEntity.
Record t : Type := {
  order : Order.t;
  totalWithTax : Z;
  customer : option Customer.t
}.
End OrderEntity.

Module InvoicePayload.
Record t : Type := {
  amount : Z;
  external_id : string;
  currency : string;
  payer_email : string;
  description : string;
  invoice_duration : Z;
  payment_methods : list string
}.
End InvoicePayload.

(** What [httpService.post(url, payload, {auth})] returns: the request,
    sent when the caller subscribes, not by [createPayment] itself. *)
Module InvoiceRequest.
Record t : Type := {
  url : string;
  payload : InvoicePayload.t;
  username : string;
  password : string
}.
End InvoiceRequest.

Module XenditInvoices.

(** What the [catch] of [createPayment] receives. *)
Inductive Caught : Type :=
| TypeError
| Thrown (e : Exn).

Inductive LogArg : Type :=
| ArgString (s : string)
| ArgPayload (p : InvoicePayload.t)
| ArgRequest (r : InvoiceRequest.t)
| ArgCaught (c : Caught).

Inductive Event : Type :=
| RepositoryFindOne (orderId : ID)
| ConsoleLog (label : string) (arg : LogArg)
| ConsoleLine (line : string).

(** An [ID] inside a string concatenation; numeric ids are integers. *)
Definition showId (id : ID) : string :=
  match id with
  | IdString s => s
  | IdNumber n => NilZero.string_of_int (Z.to_int n)
  end.

(** [a || b] on [number | undefined]: 0 is falsy. *)
Definition orNumber (a : option Z) (b : Z) : Z :=
  match a with
  | Some n => if (n =? 0)%Z then b else n
  | None => b
  end.

(** [a || b] on [string[] | undefined]: every array is truthy. *)
Definition orArray (a : option (list string)) (b : list string) : list string :=
  match a with
  | Some l => l
  | None => b
  end.

Definition newline : string := String (ascii_of_nat 10) EmptyString.

Section Service.

Variable RequestContext : Type.

(** [ctx.channel.token] *)
Variable channelToken : RequestContext -> string.

Variable options : option XenditPluginOptions.t.

(** [connection.getRepository(Order).findOne(id, {relations: ['customer']})] *)
Variable findOne : ID -> option OrderEntity.t.

Definition getCustomer (activeOrder : OrderEntity.t)
    : (Exn + Customer.t) * list Event :=
  let load :=
    let orderId := Order.id (OrderEntity.order activeOrder) in
    match findOne orderId with
    | None => (inl (Error "Customer not found."), [RepositoryFindOne orderId])
    | Some order =>
        match OrderEntity.customer order with
        | None =>
            (inl (Error "Customer not found."), [RepositoryFindOne orderId])
        | Some customer => (inr customer, [RepositoryFindOne orderId])
        end
    end in
  match OrderEntity.customer activeOrder with
  | Some customer =>
      if negb (Customer.emailAddress customer =? "") then (inr customer, [])
      else load
  | None => load
  end.

(** The [catch] block of [createPayment]; the caught values have no
    [response] property, so both [JSON.stringify] print [undefined]. *)
Definition createPaymentFailed (error : Caught) : list Event :=
  [ ConsoleLog "Error on Create Xendit Payment : " (ArgCaught error);
    ConsoleLine ("Error Response on Create Xendit Payment : " ++ newline
                   ++ "undefined");
    ConsoleLine ("Error Response Data on Create Xendit Payment : " ++ newline
                   ++ "undefined") ].

Definition createPayment (ctx : RequestContext) (order : OrderEntity.t)
    : (Exn + InvoiceRequest.t) * list Event :=
  let (resolved, events) := getCustomer order in
  match resolved with
  | inl e =>
      (inl (Error "Error on Creating Xendit Payment"),
       (events ++ createPaymentFailed (Thrown e))%list)
  | inr customer =>
      match options with
      | None =>
          (inl (Error "Error on Creating Xendit Payment"),
           (events ++ createPaymentFailed TypeError)%list)
      | Some o =>
          let payload :=
            {| InvoicePayload.amount := OrderEntity.totalWithTax order;
               InvoicePayload.external_id :=
                 Order.code (OrderEntity.order order);
               InvoicePayload.currency := "IDR";
               InvoicePayload.payer_email := Customer.emailAddress customer;
               InvoicePayload.description :=
                 channelToken ctx ++ "_"
                   ++ showId (Order.id (OrderEntity.order order));
               InvoicePayload.invoice_duration :=
                 orNumber (XenditPluginOptions.invoiceDuration o)
                   (60 * 60 * 24);
               InvoicePayload.payment_methods :=
                 orArray (XenditPluginOptions.paymentMethods o) [] |} in
          let payment :=
            {| InvoiceRequest.url := "https://api.xendit.co/v2/invoices";
               InvoiceRequest.payload := payload;
               InvoiceRequest.username := XenditPluginOptions.apiKey o;
               InvoiceRequest.password := "" |} in
          (inr payment,
           (events
              ++ [ ConsoleLog "Xendit API Key : "
                     (ArgString (XenditPluginOptions.apiKey o));
                   ConsoleLog "Xendit Payload :" (ArgPayload payload);
                   ConsoleLog "payment : " (ArgRequest payment) ])%list)
      end
  end.

End Service.

Arguments createPayment {RequestContext} channelToken options findOne ctx order.

End XenditInvoices.

(** ** xendit.resolver.ts *)

Module XenditResolver.

Section Resolver.

Variable RequestContext : Type.
Variable authorizedAsOwnerOnly : RequestContext -> bool.
Variable channelToken : RequestContext -> string.

(** [activeOrderService.getOrderFromContext(ctx)] *)
Variable getOrderFromContext : RequestContext -> option OrderEntity.t.

Variable options : option XenditPluginOptions.t.
Variable findOne : ID -> option OrderEntity.t.

Inductive Event : Type :=
| GetOrderFromContext (ctx : RequestContext)
| Service (ev : XenditInvoices.Event).

(** [None] is the [undefined] of a mutation that creates no invoice. *)
Definition createXenditPayment (ctx : RequestContext)
    : (Exn + option InvoiceRequest.t) * list Event :=
  if authorizedAsOwnerOnly ctx then
    match getOrderFromContext ctx with
    | Some sessionOrder =>
        let (created, events) :=
          XenditInvoices.createPayment channelToken options findOne ctx
            sessionOrder in
        (match created with
         | inl e => inl e
         | inr payment => inr (Some payment)
         end,
         GetOrderFromContext ctx :: List.map Service events)
    | None => (inr None, [GetOrderFromContext ctx])
    end
  else (inr None, []).

End Resolver.

Arguments GetOrderFromContext {RequestContext}.
Arguments Service {RequestContext}.
Arguments createXenditPayment {RequestContext}.

End XenditResolver.

(** ** The service calls of a run, by method *)

Module Calls.

Import XenditController.

Definition methodName {RequestContext : Type} (ev : Event RequestContext)
    : option string :=
  match ev with
  | VerifyCallback _ => Some "verifyCallback"
  | CreateContext _ => Some "create"
  | FindOneByCode _ _ => Some "findOneByCode"
  | TransitionToState _ _ _ => Some "transitionToState"
  | FindPaymentMethods _ => Some "find"
  | AddPaymentToOrder _ _ _ => Some "addPaymentToOrder"
  | _ => None
  end.

Fixpoint methods {RequestContext : Type} (tr : list (Event RequestContext))
    : list string :=
  match tr with
  | [] => []
  | ev :: rest =>
      match methodName ev with
      | Some name => name :: methods rest
      | None => methods rest
      end
  end.

Fixpoint prefixb (l m : list string) : bool :=
  match l, m with
  | [], _ => true
  | x :: l', y :: m' => (x =? y) && prefixb l' m'
  | _ :: _, [] => false
  end.

(** The order of the calls in [webhook], with and without the transition. *)
Definition withTransition : list string :=
  [ "verifyCallback"; "create"; "findOneByCode"; "transitionToState"; "find";
    "addPaymentToOrder" ].

Definition withoutTransition : list string :=
  [ "verifyCallback"; "create"; "findOneByCode"; "find"; "addPaymentToOrder" ].

End Calls.

(** ** A storefront order, for running the service *)

Module Storefront.

Definition customer (emailAddress : string) : Customer.t :=
  {| Customer.id := IdNumber 7; Customer.emailAddress := emailAddress |}.

Definition activeOrder (c : option Customer.t) : OrderEntity.t :=
  {| OrderEntity.order := Scenario.order "AddingItems";
     OrderEntity.totalWithTax := 150000;
     OrderEntity.customer := c |}.

(** A repository holding the order with its customer relation loaded. *)
Definition repository (c : option Customer.t) (orderId : ID)
    : option OrderEntity.t :=
  match orderId with
  | IdNumber 55 => Some (activeOrder c)
  | _ => None
  end.

Definition emptyRepository (orderId : ID) : option OrderEntity.t := None.

Definition options (invoiceDuration : option Z)
    (paymentMethods : option (list string)) : option XenditPluginOptions.t :=
  Some {| XenditPluginOptions.apiKey := "xnd_development_key";
          XenditPluginOptions.callbackToken := Some "xyz";
          XenditPluginOptions.invoiceDuration := invoiceDuration;
          XenditPluginOptions.paymentMethods := paymentMethods |}.

(** The storefront's request context is its channel token and whether the
    session is authorized as owner only. *)
Definition channelToken (ctx : string * bool) : string := fst ctx.
Definition authorizedAsOwnerOnly (ctx : string * bool) : bool := snd ctx.

(** A notification that echoes an invoice's description and external id. *)
Definition echo (payload : InvoicePayload.t) : XenditCallbackRequest.t :=
  {| XenditCallbackRequest.id := "inv-1";
     XenditCallbackRequest.amount := InvoicePayload.amount payload;
     XenditCallbackRequest.status := "PAID";
     XenditCallbackRequest.created := "2023-01-01T00:00:00.000Z";
     XenditCallbackRequest.is_high := false;
     XenditCallbackRequest.updated := "2023-01-01T00:05:00.000Z";
     XenditCallbackRequest.user_id := "user-1";
     XenditCallbackRequest.currency := InvoicePayload.currency payload;
     XenditCallbackRequest.description := InvoicePayload.description payload;
     XenditCallbackRequest.external_id := InvoicePayload.external_id payload;
     XenditCallbackRequest.payer_email := InvoicePayload.payer_email payload;
     XenditCallbackRequest.merchant_name := "Shop" |}.

(** The invoice [createPayment] builds for the active order in channel
    "tenant1" under the default options. *)
Definition payload : InvoicePayload.t :=
  {| InvoicePayload.amount := 150000;
     InvoicePayload.external_id := "ORD123";
     InvoicePayload.currency := "IDR";
     InvoicePayload.payer_email := "payer@example.com";
     InvoicePayload.description := "tenant1_55";
     InvoicePayload.invoice_duration := 86400;
     InvoicePayload.payment_methods := [] |}.

Definition invoice : InvoiceRequest.t :=
  {| InvoiceRequest.url := "https://api.xendit.co/v2/invoices";
     InvoiceRequest.payload := payload;
     InvoiceRequest.username := "xnd_development_key";
     InvoiceRequest.password := "" |}.


Definition echoRequest : RequestWithRawBody.t :=
  {| RequestWithRawBody.body := Some (echo payload);
     RequestWithRawBody.rawBody := "" |}.

End Storefront.

(** * Properties *)

Import XenditController.

(** ** JavaScript operators *)

Lemma split_nonempty (sep : ascii) (s : string) : Js.split sep s <> [].
Proof.
  destruct s as [|c rest]; cbn; [discriminate|].
  destruct (Ascii.eqb c sep); [discriminate|].
  destruct (Js.split sep rest); discriminate.
Qed.

(** [s.split(sep)[0]] is what comes before the first separator. *)
Lemma split_head (sep : ascii) (before after : string) :
  Js.includes sep before = false ->
  List.hd EmptyString (Js.split sep (before ++ String sep after)) = before.
Proof.
  induction before as [|c rest IH]; cbn [Js.includes Js.split append].
  - rewrite Ascii.eqb_refl. reflexivity.
  - intros H. apply orb_false_iff in H. destruct H as [Hc Hrest].
    rewrite Hc. specialize (IH Hrest).
    destruct (Js.split sep (rest ++ String sep after)) as [|piece pieces] eqn:E.
    + exfalso. exact (split_nonempty sep _ E).
    + cbn [List.hd] in *. rewrite IH. reflexivity.
Qed.

(** ** The callback verifier *)

Section Verifier.

Variable options : option XenditPluginOptions.t.

Lemma verifyCallback_unconfigured (presented : option string) :
  XenditService.configured options = None ->
  XenditService.verifyCallback options presented = Js.Undefined.
Proof.
  intros H. unfold XenditService.verifyCallback. rewrite H. reflexivity.
Qed.

Lemma verifyCallback_empty (presented : option string) :
  XenditService.configured options = Some "" ->
  XenditService.verifyCallback options presented = Js.Number 0.
Proof.
  intros H. unfold XenditService.verifyCallback. rewrite H. reflexivity.
Qed.

Lemma length_truthy (s : string) :
  s <> "" -> Js.truthy (Js.length (Some s)) = true.
Proof.
  destruct s as [|c s]; [congruence|]. intros _.
  unfold Js.length, Js.truthy. cbn [String.length].
  destruct (Z.eqb_spec (Z.of_nat (S (String.length s))) 0); [lia | reflexivity].
Qed.

Lemma verifyCallback_nonempty (secret : string) (presented : option string) :
  XenditService.configured options = Some secret -> secret <> "" ->
  XenditService.verifyCallback options presented
  = Js.Boolean (Js.strict_neq (Some secret) presented).
Proof.
  intros H Hne. unfold XenditService.verifyCallback, Js.and.
  rewrite H, (length_truthy secret Hne). reflexivity.
Qed.

Lemma strict_neq_false (a b : option string) :
  Js.strict_neq a b = false <-> a = b.
Proof.
  destruct a as [x|], b as [y|]; cbn; split; try congruence.
  - rewrite negb_false_iff. intros H. apply String.eqb_eq in H. congruence.
  - intros H. injection H as ->. rewrite String.eqb_refl. reflexivity.
Qed.

End Verifier.

(** C2, as amended.  The verifier answers "is there a mismatch?"; the
    signature is valid when the answer is falsy.  For every configured
    token (possibly absent) and every presented token (possibly absent),
    the answer is falsy if and only if no token is configured, or the
    configured token is the empty string, or the configured and the
    presented tokens are exactly equal.  In particular every presented
    token is valid when no token is configured (the first disjunct). *)
Theorem verifyCallback_valid_iff
    (options : option XenditPluginOptions.t) (presented : option string) :
  Js.truthy (XenditService.verifyCallback options presented) = false
  <-> (XenditService.configured options = None
       \/ XenditService.configured options = Some ""
       \/ XenditService.configured options = presented).
Proof.
  destruct (XenditService.configured options) as [secret|] eqn:Hc.
  - destruct (string_dec secret "") as [->|Hne].
    + rewrite (verifyCallback_empty options presented Hc). cbn. tauto.
    + rewrite (verifyCallback_nonempty options secret presented Hc Hne).
      cbn [Js.truthy]. rewrite strict_neq_false. split.
      * intros H. right. right. exact H.
      * intros [H|[H|H]]; [discriminate | congruence | exact H].
  - rewrite (verifyCallback_unconfigured options presented Hc). cbn. tauto.
Qed.

(** C2, as the specification words it, fails for an empty configured
    token: the presented token "abc" is valid although a token is
    configured and differs from it. *)
Lemma verifyCallback_valid_iff_fails_on_empty_secret :
  ~ (Js.truthy (XenditService.verifyCallback (Scenario.options (Some ""))
                  (Some "abc")) = false
     <-> (XenditService.configured (Scenario.options (Some "")) = None
          \/ XenditService.configured (Scenario.options (Some ""))
             = Some "abc")).
Proof.
  intros [H _]. destruct (H eq_refl) as [E|E]; discriminate E.
Qed.

(** C10.  When the configured callback token is the empty string the
    verifier's answer is falsy (it is the number 0, the token's length)
    for every presented token, as it is when no token is configured. *)
Theorem verifyCallback_empty_secret_bypass
    (options : option XenditPluginOptions.t) (presented : option string) :
  XenditService.configured options = Some "" ->
  XenditService.verifyCallback options presented = Js.Number 0
  /\ Js.truthy (XenditService.verifyCallback options presented) = false
  /\ forall unconfigured,
       XenditService.configured unconfigured = None ->
       Js.truthy (XenditService.verifyCallback options presented)
       = Js.truthy (XenditService.verifyCallback unconfigured presented).
Proof.
  intros H. rewrite (verifyCallback_empty options presented H).
  repeat split. intros u Hu.
  rewrite (verifyCallback_unconfigured u presented Hu). reflexivity.
Qed.

Lemma verifyCallback_empty_secret_bypass_witness :
  XenditService.verifyCallback (Scenario.options (Some "")) (Some "abc")
  = Js.Number 0
  /\ Js.truthy (XenditService.verifyCallback (Scenario.options (Some ""))
                  (Some "abc")) = false
  /\ forall unconfigured,
       XenditService.configured unconfigured = None ->
       Js.truthy (XenditService.verifyCallback (Scenario.options (Some ""))
                    (Some "abc"))
       = Js.truthy (XenditService.verifyCallback unconfigured (Some "abc")).
Proof.
  apply (verifyCallback_empty_secret_bypass (Scenario.options (Some ""))
           (Some "abc")).
  reflexivity.
Defined.

(** ** Refunds *)

(** The service's refund creation does nothing and returns nothing. *)
Lemma service_createRefund_returns_nothing (paymentIntentId : string) (amount : Z) :
  XenditService.createRefund paymentIntentId amount = Js.Undefined.
Proof. reflexivity. Qed.

(** C9.  The service's [createRefund] returns nothing, but the payment
    method handler's [createRefund] answers the host with a refund in state
    [Settled] carrying the payment's transaction id, for every input. *)
Theorem handler_createRefund_reports_settled
    (Ctx Input Ord Args : Type) (ctx : Ctx) (input : Input) (amount : Z)
    (order : Ord) (payment : Payment.t) (args : Args) :
  XenditService.createRefund (Payment.transactionId payment) amount
  = Js.Undefined
  /\ xenditPaymentMethodHandler.createRefund ctx input amount order payment args
     = {| CreateRefundResult.state := CreateRefundResult.Settled;
          CreateRefundResult.transactionId := Payment.transactionId payment |}.
Proof. split; reflexivity. Qed.

(** ** The webhook, stage by stage *)

Section Stages.

Variable RequestContext : Type.
Variable loggerCtx : string.
Variable this : XenditController.t RequestContext.

Implicit Types (tr : list (Event RequestContext)) (ctx : RequestContext).
Implicit Types (order : Order.t) (xenditPayment : XenditCallbackRequest.t).
Implicit Types (request : RequestWithRawBody.t) (callbackToken : option string).

Lemma getPaymentMethod_found ctx method tr :
  Webhook.resolvedMethod this ctx = Some method ->
  getPaymentMethod loggerCtx this ctx tr
  = (inr method, (tr ++ [FindPaymentMethods ctx])%list).
Proof.
  unfold Webhook.resolvedMethod, getPaymentMethod, bind, call, invoke.
  intros ->. reflexivity.
Qed.

Lemma getPaymentMethod_missing ctx tr :
  Webhook.resolvedMethod this ctx = None ->
  getPaymentMethod loggerCtx this ctx tr
  = (inl (InternalServerError
            ("[" ++ loggerCtx ++ "] Could not find Xendit PaymentMethod")),
     (tr ++ [FindPaymentMethods ctx])%list).
Proof.
  unfold Webhook.resolvedMethod, getPaymentMethod, bind, call, invoke.
  intros ->. reflexivity.
Qed.

Lemma recordPayment_missing ctx order orderCode xenditPayment tr :
  Webhook.resolvedMethod this ctx = None ->
  recordPayment loggerCtx this ctx order orderCode xenditPayment tr
  = (inl (InternalServerError
            ("[" ++ loggerCtx ++ "] Could not find Xendit PaymentMethod")),
     (tr ++ [FindPaymentMethods ctx])%list).
Proof.
  intros H. unfold recordPayment, bind.
  rewrite (getPaymentMethod_missing ctx tr H). reflexivity.
Qed.

Lemma recordPayment_added ctx order orderCode xenditPayment method settled tr :
  Webhook.resolvedMethod this ctx = Some method ->
  addPaymentToOrder (orderService this) ctx (Order.id order)
    (Webhook.paymentInput method xenditPayment) = PaymentAdded settled ->
  recordPayment loggerCtx this ctx order orderCode xenditPayment tr
  = (inr tt,
     (tr ++ [ FindPaymentMethods ctx;
              AddPaymentToOrder ctx (Order.id order)
                (Webhook.paymentInput method xenditPayment);
              LoggerInfo
                ("Xendit payment id " ++ XenditCallbackRequest.id xenditPayment
                   ++ " added to order " ++ orderCode)
                loggerCtx;
              ResponseSend HttpStatus.OK "Ok" ])%list).
Proof.
  intros Hm Ha. unfold recordPayment, bind.
  rewrite (getPaymentMethod_found ctx method tr Hm).
  unfold call, invoke, Webhook.paymentInput in *. rewrite Ha.
  unfold respond, emit. rewrite <- !app_assoc. reflexivity.
Qed.

Lemma recordPayment_rejected ctx order orderCode xenditPayment method
    errorCode msg tr :
  Webhook.resolvedMethod this ctx = Some method ->
  addPaymentToOrder (orderService this) ctx (Order.id order)
    (Webhook.paymentInput method xenditPayment)
  = AddPaymentError errorCode msg ->
  recordPayment loggerCtx this ctx order orderCode xenditPayment tr
  = (inr tt,
     (tr ++ [ FindPaymentMethods ctx;
              AddPaymentToOrder ctx (Order.id order)
                (Webhook.paymentInput method xenditPayment);
              LoggerError
                ("Error adding payment to order " ++ orderCode ++ ": " ++ msg)
                loggerCtx ])%list).
Proof.
  intros Hm Ha. unfold recordPayment, bind.
  rewrite (getPaymentMethod_found ctx method tr Hm).
  unfold call, invoke, Webhook.paymentInput in *. rewrite Ha.
  unfold emit. rewrite <- !app_assoc. reflexivity.
Qed.

(** Whatever the services answer, recording the payment asks for no
    transition and adds at most one payment. *)
Lemma recordPayment_calls ctx order orderCode xenditPayment tr :
  exists result suffix,
    recordPayment loggerCtx this ctx order orderCode xenditPayment tr
    = (result, (tr ++ suffix)%list)
    /\ transitionCalls suffix = []
    /\ (addPaymentCalls suffix = []
        \/ exists method,
             addPaymentCalls suffix
             = [AddPaymentToOrder ctx (Order.id order)
                  (Webhook.paymentInput method xenditPayment)]).
Proof.
  destruct (Webhook.resolvedMethod this ctx) as [method|] eqn:Hm.
  - destruct (addPaymentToOrder (orderService this) ctx (Order.id order)
                (Webhook.paymentInput method xenditPayment))
      as [settled|errorCode msg] eqn:Ha.
    + rewrite (recordPayment_added _ _ _ _ _ _ _ Hm Ha).
      do 2 eexists. split; [reflexivity|]. split; [reflexivity|].
      right. exists method. reflexivity.
    + rewrite (recordPayment_rejected _ _ _ _ _ _ _ _ Hm Ha).
      do 2 eexists. split; [reflexivity|]. split; [reflexivity|].
      right. exists method. reflexivity.
  - rewrite (recordPayment_missing _ _ _ _ _ Hm).
    do 2 eexists. split; [reflexivity|]. split; [reflexivity|].
    left. reflexivity.
Qed.

(** *** Locating the order and preparing its state *)

Section Reconcile.

Variables (request : RequestWithRawBody.t)
          (xenditPayment : XenditCallbackRequest.t).

Abbreviation ctx0 := (Webhook.contextOf this request xenditPayment).
Abbreviation orderCode := (XenditCallbackRequest.external_id xenditPayment).
Abbreviation located :=
  [ CreateContext (Webhook.createArgs request xenditPayment);
    FindOneByCode ctx0 orderCode ].

Lemma reconcile_not_found tr :
  findOneByCode (orderService this) ctx0 orderCode = None ->
  reconcile loggerCtx this request xenditPayment tr
  = (inl (Error ("Unable to find order " ++ orderCode
                   ++ ", unable to settle payment "
                   ++ XenditCallbackRequest.id xenditPayment ++ "!")),
     (tr ++ located)%list).
Proof.
  unfold reconcile, createContext, bind, call, invoke, throw.
  unfold Webhook.contextOf, Webhook.createArgs.
  intros ->. rewrite <- !app_assoc. reflexivity.
Qed.

Lemma reconcile_arranging order tr :
  findOneByCode (orderService this) ctx0 orderCode = Some order ->
  Order.state order = "ArrangingPayment" ->
  reconcile loggerCtx this request xenditPayment tr
  = recordPayment loggerCtx this ctx0 order orderCode xenditPayment
      (tr ++ located)%list.
Proof.
  unfold reconcile, createContext, bind, call, invoke.
  unfold Webhook.contextOf, Webhook.createArgs.
  intros -> ->. rewrite <- !app_assoc. reflexivity.
Qed.

Lemma reconcile_transitioned order order' tr :
  findOneByCode (orderService this) ctx0 orderCode = Some order ->
  Order.state order <> "ArrangingPayment" ->
  transitionToState (orderService this) ctx0 (Order.id order)
    "ArrangingPayment" = Transitioned order' ->
  reconcile loggerCtx this request xenditPayment tr
  = recordPayment loggerCtx this ctx0 order orderCode xenditPayment
      (tr ++ located
          ++ [TransitionToState ctx0 (Order.id order) "ArrangingPayment"])%list.
Proof.
  unfold reconcile, createContext, bind, call, invoke.
  unfold Webhook.contextOf, Webhook.createArgs.
  intros -> Hst. apply String.eqb_neq in Hst. rewrite Hst. cbn [negb].
  intros ->. rewrite <- !app_assoc. reflexivity.
Qed.

Lemma reconcile_refused order msg tr :
  findOneByCode (orderService this) ctx0 orderCode = Some order ->
  Order.state order <> "ArrangingPayment" ->
  transitionToState (orderService this) ctx0 (Order.id order)
    "ArrangingPayment" = OrderStateTransitionError msg ->
  reconcile loggerCtx this request xenditPayment tr
  = (inr tt,
     (tr ++ located
         ++ [ TransitionToState ctx0 (Order.id order) "ArrangingPayment";
              LoggerError
                ("Error transitioning order " ++ orderCode
                   ++ " to ArrangingPayment state: " ++ msg)
                loggerCtx ])%list).
Proof.
  unfold reconcile, createContext, bind, call, invoke, emit.
  unfold Webhook.contextOf, Webhook.createArgs.
  intros -> Hst. apply String.eqb_neq in Hst. rewrite Hst. cbn [negb].
  intros ->. rewrite <- !app_assoc. reflexivity.
Qed.

End Reconcile.

(** *** The checks on the request *)

Lemma webhook_missing_header callbackToken request tr :
  Js.truthy_str callbackToken = false ->
  webhook loggerCtx this callbackToken request tr
  = (inr tt,
     (tr ++ [ LoggerError missingHeaderErrorMessage loggerCtx;
              ResponseSend HttpStatus.BAD_REQUEST missingHeaderErrorMessage ])%list).
Proof.
  unfold webhook, respond, bind, emit. intros ->. cbn [negb].
  rewrite <- !app_assoc. reflexivity.
Qed.

Lemma webhook_verification_throws callbackToken request e tr :
  Js.truthy_str callbackToken = true ->
  verifyCallback (xenditService this) callbackToken = inl e ->
  webhook loggerCtx this callbackToken request tr
  = (inr tt,
     (tr ++ [ VerifyCallback callbackToken;
              LoggerError
                (signatureErrorMessage ++ " " ++ Js.show callbackToken
                   ++ ": " ++ message e)
                loggerCtx;
              ResponseSend HttpStatus.BAD_REQUEST signatureErrorMessage ])%list).
Proof.
  unfold webhook, respond, bind, attempt, invoke, emit. intros -> ->.
  cbn [negb]. rewrite <- !app_assoc. reflexivity.
Qed.

Lemma webhook_no_body callbackToken request answer tr :
  Js.truthy_str callbackToken = true ->
  verifyCallback (xenditService this) callbackToken = inr answer ->
  RequestWithRawBody.body request = None ->
  webhook loggerCtx this callbackToken request tr
  = (inr tt,
     (tr ++ [ VerifyCallback callbackToken;
              ConsoleLog "x-callback-token : " (LogString callbackToken);
              LoggerError noPaymentIntentErrorMessage loggerCtx;
              ResponseSend HttpStatus.BAD_REQUEST
                noPaymentIntentErrorMessage ])%list).
Proof.
  unfold webhook, respond, bind, attempt, invoke, emit. intros -> -> ->.
  cbn [negb]. rewrite <- !app_assoc. reflexivity.
Qed.

(** The answer of the verification is dropped: whatever it is, the
    notification goes on to be reconciled. *)
Lemma webhook_reconciles callbackToken request xenditPayment answer tr :
  Js.truthy_str callbackToken = true ->
  verifyCallback (xenditService this) callbackToken = inr answer ->
  RequestWithRawBody.body request = Some xenditPayment ->
  webhook loggerCtx this callbackToken request tr
  = reconcile loggerCtx this request xenditPayment
      (tr ++ [ VerifyCallback callbackToken;
               ConsoleLog "x-callback-token : " (LogString callbackToken);
               ConsoleLog "XenditPayment : " (LogPayment xenditPayment) ])%list.
Proof.
  unfold webhook, respond, bind, attempt, invoke, emit. intros -> -> ->.
  cbn [negb]. rewrite <- !app_assoc. reflexivity.
Qed.

End Stages.

(** ** The deployed controller *)

Section Deployed.

Variable RequestContext : Type.
Variable loggerCtx : string.
Variable options : option XenditPluginOptions.t.
Variable connection : TransactionalConnection RequestContext.
Variable orderService : OrderService RequestContext.
Variable requestContextService : RequestContextService RequestContext.

Abbreviation this :=
  (XenditPlugin.controller options connection orderService
     requestContextService).
Abbreviation handle := (Webhook.handle loggerCtx this).
Abbreviation contextOf := (Webhook.contextOf this).

(** The events of a run up to the lookup of the order. *)
Abbreviation lookup callbackToken request xenditPayment :=
  (Webhook.preamble callbackToken request xenditPayment
     ++ [FindOneByCode (contextOf request xenditPayment)
           (XenditCallbackRequest.external_id xenditPayment)])%list.

Implicit Types (order : Order.t) (xenditPayment : XenditCallbackRequest.t).
Implicit Types (request : RequestWithRawBody.t) (callbackToken : option string).

(** The deployed verification never throws, so the [catch] of the webhook
    is never entered, and its answer is not looked at: every notification
    with a token and a body is reconciled. *)
Lemma handle_reconciles callbackToken request xenditPayment :
  Js.truthy_str callbackToken = true ->
  RequestWithRawBody.body request = Some xenditPayment ->
  handle callbackToken request
  = reconcile loggerCtx this request xenditPayment
      [ VerifyCallback callbackToken;
        ConsoleLog "x-callback-token : " (LogString callbackToken);
        ConsoleLog "XenditPayment : " (LogPayment xenditPayment) ].
Proof.
  intros Htok Hbody. unfold Webhook.handle, run.
  rewrite (webhook_reconciles _ loggerCtx this callbackToken request
             xenditPayment
             (XenditService.verifyCallback options callbackToken) []
             Htok eq_refl Hbody).
  reflexivity.
Qed.

(** C3.  When the x-callback-token header is absent, the webhook logs and
    answers 400 with the missing-header message and returns: it calls no
    service at all (no verifyCallback, findOneByCode, transitionToState or
    addPaymentToOrder), and what it does is the same for every request
    body. *)
Theorem missing_header_rejected_first request :
  handle None request
  = (inr tt,
     [ LoggerError missingHeaderErrorMessage loggerCtx;
       ResponseSend HttpStatus.BAD_REQUEST missingHeaderErrorMessage ])
  /\ serviceCalls (snd (handle None request)) = []
  /\ orderStoreCalls (snd (handle None request)) = []
  /\ responses (snd (handle None request))
     = [ResponseSend 400 "Missing xendit-signature header"]
  /\ forall request', handle None request' = handle None request.
Proof.
  assert (E : forall r, handle None r
                        = (inr tt,
                           [ LoggerError missingHeaderErrorMessage loggerCtx;
                             ResponseSend HttpStatus.BAD_REQUEST
                               missingHeaderErrorMessage ])).
  { intros r. unfold Webhook.handle, run.
    rewrite (webhook_missing_header _ loggerCtx this None r [] eq_refl).
    reflexivity. }
  rewrite (E request). repeat split.
Qed.

(** C5.  Once the order is located: if its state is ArrangingPayment the
    run contains no transitionToState call; otherwise it contains exactly
    one, it asks for ArrangingPayment, and no addPaymentToOrder call comes
    before it. *)
Theorem transition_iff_not_arranging callbackToken request xenditPayment order :
  Js.truthy_str callbackToken = true ->
  RequestWithRawBody.body request = Some xenditPayment ->
  findOneByCode orderService (contextOf request xenditPayment)
    (XenditCallbackRequest.external_id xenditPayment) = Some order ->
  (Order.state order = "ArrangingPayment" ->
   transitionCalls (snd (handle callbackToken request)) = [])
  /\ (Order.state order <> "ArrangingPayment" ->
      transitionCalls (snd (handle callbackToken request))
      = [TransitionToState (contextOf request xenditPayment) (Order.id order)
           "ArrangingPayment"]
      /\ exists before after,
           snd (handle callbackToken request)
           = (before
                ++ TransitionToState (contextOf request xenditPayment)
                     (Order.id order) "ArrangingPayment"
                :: after)%list
           /\ addPaymentCalls before = []).
Proof.
  intros Htok Hbody Hfound.
  rewrite (handle_reconciles _ _ _ Htok Hbody). split; intros Hstate.
  - rewrite (reconcile_arranging _ loggerCtx this request xenditPayment order
               _ Hfound Hstate).
    destruct (recordPayment_calls _ loggerCtx this
                (contextOf request xenditPayment) order
                (XenditCallbackRequest.external_id xenditPayment) xenditPayment
                ([ VerifyCallback callbackToken;
                   ConsoleLog "x-callback-token : " (LogString callbackToken);
                   ConsoleLog "XenditPayment : " (LogPayment xenditPayment) ]
                 ++ [ CreateContext (Webhook.createArgs request xenditPayment);
                      FindOneByCode (contextOf request xenditPayment)
                        (XenditCallbackRequest.external_id xenditPayment) ])%list)
      as (result & suffix & -> & Hnone & _).
    cbn [snd]. unfold transitionCalls in *. rewrite filter_app, Hnone.
    reflexivity.
  - destruct (transitionToState orderService (contextOf request xenditPayment)
                (Order.id order) "ArrangingPayment") as [order'|msg] eqn:Htr.
    + rewrite (reconcile_transitioned _ loggerCtx this request xenditPayment
                 order order' _ Hfound Hstate Htr).
      match goal with
      | |- context [recordPayment ?l ?t ?c ?o ?k ?p ?tr0] =>
          destruct (recordPayment_calls _ l t c o k p tr0)
            as (result & suffix & -> & Hnone & _)
      end.
      cbn [snd]. split.
      * unfold transitionCalls in *. rewrite filter_app, Hnone. reflexivity.
      * exists (lookup callbackToken request xenditPayment), suffix.
        split; reflexivity.
    + rewrite (reconcile_refused _ loggerCtx this request xenditPayment
                 order msg _ Hfound Hstate Htr).
      cbn [snd]. split; [reflexivity|].
      exists (lookup callbackToken request xenditPayment). eexists.
      split; reflexivity.
Qed.

(** C6.  When the order lookup finds nothing, the run contains no
    transitionToState call and no addPaymentToOrder call, and the webhook
    throws an error whose message contains the order code that was looked
    up (the notification's external_id). *)
Theorem unknown_order_throws callbackToken request xenditPayment :
  Js.truthy_str callbackToken = true ->
  RequestWithRawBody.body request = Some xenditPayment ->
  findOneByCode orderService (contextOf request xenditPayment)
    (XenditCallbackRequest.external_id xenditPayment) = None ->
  transitionCalls (snd (handle callbackToken request)) = []
  /\ addPaymentCalls (snd (handle callbackToken request)) = []
  /\ fst (handle callbackToken request)
     = inl (Error ("Unable to find order "
                     ++ XenditCallbackRequest.external_id xenditPayment
                     ++ ", unable to settle payment "
                     ++ XenditCallbackRequest.id xenditPayment ++ "!"))
  /\ exists msg before after,
       fst (handle callbackToken request) = inl (Error msg)
       /\ msg = before ++ XenditCallbackRequest.external_id xenditPayment
                  ++ after.
Proof.
  intros Htok Hbody Hnone.
  rewrite (handle_reconciles _ _ _ Htok Hbody).
  rewrite (reconcile_not_found _ loggerCtx this request xenditPayment _ Hnone).
  cbn [fst snd]. repeat split.
  eexists _, "Unable to find order ", _. split; reflexivity.
Qed.

(** C7.  When the order is not in ArrangingPayment and the Order Store
    answers the transition with an OrderStateTransitionError, the webhook
    returns normally (it throws nothing) and the run contains no
    addPaymentToOrder call. *)
Theorem refused_transition_stops callbackToken request xenditPayment order msg :
  Js.truthy_str callbackToken = true ->
  RequestWithRawBody.body request = Some xenditPayment ->
  findOneByCode orderService (contextOf request xenditPayment)
    (XenditCallbackRequest.external_id xenditPayment) = Some order ->
  Order.state order <> "ArrangingPayment" ->
  transitionToState orderService (contextOf request xenditPayment)
    (Order.id order) "ArrangingPayment" = OrderStateTransitionError msg ->
  fst (handle callbackToken request) = inr tt
  /\ addPaymentCalls (snd (handle callbackToken request)) = []
  /\ exists before,
       snd (handle callbackToken request)
       = (before
            ++ [ TransitionToState (contextOf request xenditPayment)
                   (Order.id order) "ArrangingPayment";
                 LoggerError
                   ("Error transitioning order "
                      ++ XenditCallbackRequest.external_id xenditPayment
                      ++ " to ArrangingPayment state: " ++ msg)
                   loggerCtx ])%list.
Proof.
  intros Htok Hbody Hfound Hstate Htr.
  rewrite (handle_reconciles _ _ _ Htok Hbody).
  rewrite (reconcile_refused _ loggerCtx this request xenditPayment order msg
             _ Hfound Hstate Htr).
  cbn [fst snd]. repeat split.
  exists (lookup callbackToken request xenditPayment). reflexivity.
Qed.

Lemma find_none_of_no_match (methods : list PaymentMethod.t) :
  (forall m, In m methods ->
             ConfigurableOperation.code (PaymentMethod.handler m)
             <> xenditPaymentMethodHandler.code) ->
  List.find isXendit methods = None.
Proof.
  intros H. induction methods as [|m rest IH]; [reflexivity|].
  cbn [List.find]. unfold isXendit at 1.
  destruct (String.eqb_spec
              (ConfigurableOperation.code (PaymentMethod.handler m))
              xenditPaymentMethodHandler.code) as [E|_].
  - exfalso. exact (H m (or_introl eq_refl) E).
  - apply IH. intros m' Hin. apply H. right. exact Hin.
Qed.

(** C8.  Once the order is located and its state is, or has been moved
    to, ArrangingPayment: when no configured payment method has a handler
    whose code is the Xendit handler's code, the webhook throws the
    InternalServerError of [getPaymentMethod] (not the plain Error of a
    missing order, and not a logged return), every transitionToState call
    of the run is made before the payment methods are read, and the run
    contains no addPaymentToOrder call. *)
Theorem missing_payment_method_throws callbackToken request xenditPayment order :
  Js.truthy_str callbackToken = true ->
  RequestWithRawBody.body request = Some xenditPayment ->
  findOneByCode orderService (contextOf request xenditPayment)
    (XenditCallbackRequest.external_id xenditPayment) = Some order ->
  (Order.state order = "ArrangingPayment"
   \/ exists order',
        transitionToState orderService (contextOf request xenditPayment)
          (Order.id order) "ArrangingPayment" = Transitioned order') ->
  (forall m, In m (find connection (contextOf request xenditPayment)) ->
             ConfigurableOperation.code (PaymentMethod.handler m)
             <> xenditPaymentMethodHandler.code) ->
  fst (handle callbackToken request)
  = inl (InternalServerError
           ("[" ++ loggerCtx ++ "] Could not find Xendit PaymentMethod"))
  /\ addPaymentCalls (snd (handle callbackToken request)) = []
  /\ exists before,
       snd (handle callbackToken request)
       = (before ++ [FindPaymentMethods (contextOf request xenditPayment)])%list
       /\ transitionCalls before
          = if Order.state order =? "ArrangingPayment" then []
            else [TransitionToState (contextOf request xenditPayment)
                    (Order.id order) "ArrangingPayment"].
Proof.
  intros Htok Hbody Hfound Hready Hnone.
  apply find_none_of_no_match in Hnone.
  rewrite (handle_reconciles _ _ _ Htok Hbody).
  destruct (String.eqb_spec (Order.state order) "ArrangingPayment")
    as [Hstate|Hstate].
  - rewrite (reconcile_arranging _ loggerCtx this request xenditPayment order
               _ Hfound Hstate).
    rewrite (recordPayment_missing _ loggerCtx this _ order _ xenditPayment _
               Hnone).
    cbn [fst snd]. repeat split.
    exists (lookup callbackToken request xenditPayment). split; reflexivity.
  - destruct Hready as [Hready|[order' Htr]]; [contradiction|].
    rewrite (reconcile_transitioned _ loggerCtx this request xenditPayment
               order order' _ Hfound Hstate Htr).
    rewrite (recordPayment_missing _ loggerCtx this _ order _ xenditPayment _
               Hnone).
    cbn [fst snd]. repeat split.
    exists (lookup callbackToken request xenditPayment
              ++ [TransitionToState (contextOf request xenditPayment)
                    (Order.id order) "ArrangingPayment"])%list.
    split; reflexivity.
Qed.

(** C4, as amended.  For a notification with external_id "ORD123",
    description "tenant1_55" and id "inv-1", presented with a token, when
    order ORD123 is found in state AddingItems, the transition is accepted
    and a Xendit payment method is configured: the context is created for
    channel "tenant1"; the run contains exactly one transitionToState call,
    to ArrangingPayment, and after it exactly one addPaymentToOrder call,
    whose method is the resolved payment method's code and whose metadata
    is the whole notification body; and if the Order Store answers that call
    with an Order, the webhook then responds 200 "Ok" and returns. *)
Theorem ORD123_payment_recorded callbackToken request xenditPayment order
    order' method :
  Js.truthy_str callbackToken = true ->
  RequestWithRawBody.body request = Some xenditPayment ->
  XenditCallbackRequest.external_id xenditPayment = "ORD123" ->
  XenditCallbackRequest.description xenditPayment = "tenant1_55" ->
  XenditCallbackRequest.id xenditPayment = "inv-1" ->
  findOneByCode orderService (contextOf request xenditPayment) "ORD123"
  = Some order ->
  Order.state order = "AddingItems" ->
  transitionToState orderService (contextOf request xenditPayment)
    (Order.id order) "ArrangingPayment" = Transitioned order' ->
  Webhook.resolvedMethod this (contextOf request xenditPayment) = Some method ->
  CreateArgs.channelOrToken (Webhook.createArgs request xenditPayment)
  = "tenant1"
  /\ transitionCalls (snd (handle callbackToken request))
     = [TransitionToState (contextOf request xenditPayment) (Order.id order)
          "ArrangingPayment"]
  /\ addPaymentCalls (snd (handle callbackToken request))
     = [AddPaymentToOrder (contextOf request xenditPayment) (Order.id order)
          {| PaymentInput.method := PaymentMethod.code method;
             PaymentInput.metadata := xenditPayment |}]
  /\ (exists before between after,
        snd (handle callbackToken request)
        = (before
             ++ TransitionToState (contextOf request xenditPayment)
                  (Order.id order) "ArrangingPayment"
             :: between
             ++ AddPaymentToOrder (contextOf request xenditPayment)
                  (Order.id order)
                  {| PaymentInput.method := PaymentMethod.code method;
                     PaymentInput.metadata := xenditPayment |}
             :: after)%list)
  /\ (forall settled,
        addPaymentToOrder orderService (contextOf request xenditPayment)
          (Order.id order)
          {| PaymentInput.method := PaymentMethod.code method;
             PaymentInput.metadata := xenditPayment |}
        = PaymentAdded settled ->
        fst (handle callbackToken request) = inr tt
        /\ responses (snd (handle callbackToken request))
           = [ResponseSend 200 "Ok"]
        /\ exists before,
             snd (handle callbackToken request)
             = (before ++ [ResponseSend 200 "Ok"])%list
             /\ addPaymentCalls before
                = addPaymentCalls (snd (handle callbackToken request))).
Proof.
  intros Htok Hbody Hcode Hdescription _ Hfound Hstate Htr Hmethod.
  split.
  { unfold Webhook.createArgs. cbn [CreateArgs.channelOrToken].
    rewrite Hdescription. reflexivity. }
  assert (Hnot : Order.state order <> "ArrangingPayment")
    by (rewrite Hstate; discriminate).
  rewrite <- Hcode in Hfound.
  rewrite (handle_reconciles _ _ _ Htok Hbody).
  rewrite (reconcile_transitioned _ loggerCtx this request xenditPayment
             order order' _ Hfound Hnot Htr).
  destruct (addPaymentToOrder orderService (contextOf request xenditPayment)
              (Order.id order) (Webhook.paymentInput method xenditPayment))
    as [settled|errorCode msg] eqn:Hadd.
  - rewrite (recordPayment_added _ loggerCtx this _ order _ xenditPayment
               method settled _ Hmethod Hadd).
    cbn [fst snd]. split; [reflexivity|]. split; [reflexivity|]. split.
    + exists (lookup callbackToken request xenditPayment),
        [FindPaymentMethods (contextOf request xenditPayment)].
      eexists. reflexivity.
    + intros settled' _. split; [reflexivity|]. split; [reflexivity|].
      eexists (lookup callbackToken request xenditPayment ++ [_; _; _; _])%list.
      split; reflexivity.
  - rewrite (recordPayment_rejected _ loggerCtx this _ order _ xenditPayment
               method errorCode msg _ Hmethod Hadd).
    cbn [fst snd]. split; [reflexivity|]. split; [reflexivity|]. split.
    + exists (lookup callbackToken request xenditPayment),
        [FindPaymentMethods (contextOf request xenditPayment)].
      eexists. reflexivity.
    + intros settled' Hadd'. unfold Webhook.paymentInput in Hadd.
      congruence.
Qed.

End Deployed.

(** The [catch] of the webhook, for a service whose verification throws:
    400 with the bad-signature message, and no Order Store call. *)
Lemma verification_exception_rejected (RequestContext : Type)
    (loggerCtx : string) (controller : XenditController.t RequestContext)
    (callbackToken : option string) (request : RequestWithRawBody.t)
    (e : Exn) :
  Js.truthy_str callbackToken = true ->
  verifyCallback (xenditService controller) callbackToken = inl e ->
  fst (Webhook.handle loggerCtx controller callbackToken request) = inr tt
  /\ responses (snd (Webhook.handle loggerCtx controller callbackToken request))
     = [ResponseSend 400 "Error verifying Xendit webhook signature"]
  /\ orderStoreCalls
       (snd (Webhook.handle loggerCtx controller callbackToken request))
     = [].
Proof.
  intros Htok Hthrow. unfold Webhook.handle, run.
  rewrite (webhook_verification_throws _ loggerCtx controller callbackToken
             request e [] Htok Hthrow).
  repeat split.
Qed.

(** ** Runs of the concrete deployment *)

Example split_description :
  Js.split "_" "tenant1_55" = ["tenant1"; "55"].
Proof. reflexivity. Qed.

(** C1.  Configured token "xyz", presented token "abc": the verifier
    reports the mismatch, yet the webhook does not answer 400; it looks the
    order up, moves it to ArrangingPayment, adds the payment and answers
    200 "Ok". *)
Theorem mismatched_token_is_reconciled :
  Js.truthy (XenditService.verifyCallback (Scenario.options (Some "xyz"))
               (Some "abc")) = true
  /\ fst (Webhook.handle "XenditPlugin"
            (Scenario.deployment (Some "xyz") [Scenario.xenditMethod]
               (Some (Scenario.order "AddingItems")) Scenario.accepted
               Scenario.settled)
            (Some "abc") Scenario.request) = inr tt
  /\ responses
       (snd (Webhook.handle "XenditPlugin"
               (Scenario.deployment (Some "xyz") [Scenario.xenditMethod]
                  (Some (Scenario.order "AddingItems")) Scenario.accepted
                  Scenario.settled)
               (Some "abc") Scenario.request))
     = [ResponseSend 200 "Ok"]
  /\ orderStoreCalls
       (snd (Webhook.handle "XenditPlugin"
               (Scenario.deployment (Some "xyz") [Scenario.xenditMethod]
                  (Some (Scenario.order "AddingItems")) Scenario.accepted
                  Scenario.settled)
               (Some "abc") Scenario.request))
     = [ FindOneByCode "tenant1" "ORD123";
         TransitionToState "tenant1" (IdNumber 55) "ArrangingPayment";
         AddPaymentToOrder "tenant1" (IdNumber 55)
           {| PaymentInput.method := "xendit-payment";
              PaymentInput.metadata := Scenario.notification |} ].
Proof. repeat split. Qed.

(** The same request against a service whose verification throws is
    answered 400 with the bad-signature message, with no Order Store
    call. *)
Lemma throwing_verification_is_rejected :
  responses
    (snd (Webhook.handle "XenditPlugin" Scenario.throwingDeployment
            (Some "abc") Scenario.request))
  = [ResponseSend 400 "Error verifying Xendit webhook signature"]
  /\ orderStoreCalls
       (snd (Webhook.handle "XenditPlugin" Scenario.throwingDeployment
               (Some "abc") Scenario.request))
     = [].
Proof.
  apply (verification_exception_rejected string "XenditPlugin"
           Scenario.throwingDeployment (Some "abc") Scenario.request
           (Error "bad token"));
    reflexivity.
Qed.

(** C4, as the specification words it, fails when the Order Store
    declines the payment: the order is found in AddingItems, the transition
    is accepted and the payment method is resolved, the two calls are made,
    but the webhook returns without sending any response. *)
Lemma ORD123_declined_payment_gets_no_response :
  findOneByCode
    (Scenario.store (Some (Scenario.order "AddingItems")) Scenario.accepted
       Scenario.declined)
    "tenant1" "ORD123"
  = Some (Scenario.order "AddingItems")
  /\ transitionToState
       (Scenario.store (Some (Scenario.order "AddingItems")) Scenario.accepted
          Scenario.declined)
       "tenant1" (IdNumber 55) "ArrangingPayment"
     = Transitioned (Scenario.order "ArrangingPayment")
  /\ Webhook.resolvedMethod
       (Scenario.deployment (Some "xyz") [Scenario.xenditMethod]
          (Some (Scenario.order "AddingItems")) Scenario.accepted
          Scenario.declined)
       "tenant1"
     = Some Scenario.xenditMethod
  /\ fst (Webhook.handle "XenditPlugin"
            (Scenario.deployment (Some "xyz") [Scenario.xenditMethod]
               (Some (Scenario.order "AddingItems")) Scenario.accepted
               Scenario.declined)
            (Some "xyz") Scenario.request) = inr tt
  /\ responses
       (snd (Webhook.handle "XenditPlugin"
               (Scenario.deployment (Some "xyz") [Scenario.xenditMethod]
                  (Some (Scenario.order "AddingItems")) Scenario.accepted
                  Scenario.declined)
               (Some "xyz") Scenario.request))
     = []
  /\ ~ In (ResponseSend 200 "Ok")
         (snd (Webhook.handle "XenditPlugin"
                 (Scenario.deployment (Some "xyz") [Scenario.xenditMethod]
                    (Some (Scenario.order "AddingItems")) Scenario.accepted
                    Scenario.declined)
                 (Some "xyz") Scenario.request)).
Proof.
  repeat split. cbn. intros H.
  repeat (destruct H as [H|H]; [discriminate H|]). exact H.
Qed.

(** *** The theorems above at the concrete deployment *)

Lemma ORD123_payment_recorded_witness :
  addPaymentCalls
    (snd (Webhook.handle "XenditPlugin"
            (Scenario.deployment (Some "xyz") [Scenario.otherMethod;
                                               Scenario.xenditMethod]
               (Some (Scenario.order "AddingItems")) Scenario.accepted
               Scenario.settled)
            (Some "xyz") Scenario.request))
  = [AddPaymentToOrder "tenant1" (IdNumber 55)
       {| PaymentInput.method := "xendit-payment";
          PaymentInput.metadata := Scenario.notification |}]
  /\ responses
       (snd (Webhook.handle "XenditPlugin"
               (Scenario.deployment (Some "xyz") [Scenario.otherMethod;
                                                  Scenario.xenditMethod]
                  (Some (Scenario.order "AddingItems")) Scenario.accepted
                  Scenario.settled)
               (Some "xyz") Scenario.request))
     = [ResponseSend 200 "Ok"].
Proof.
  pose proof
    (ORD123_payment_recorded string "XenditPlugin"
       (Scenario.options (Some "xyz"))
       (Scenario.methods [Scenario.otherMethod; Scenario.xenditMethod])
       (Scenario.store (Some (Scenario.order "AddingItems")) Scenario.accepted
          Scenario.settled)
       Scenario.contexts (Some "xyz") Scenario.request Scenario.notification
       (Scenario.order "AddingItems") (Scenario.order "ArrangingPayment")
       Scenario.xenditMethod
       eq_refl eq_refl eq_refl eq_refl eq_refl eq_refl eq_refl eq_refl eq_refl)
    as (_ & _ & Hadd & _ & Hsettled).
  split.
  - exact Hadd.
  - exact (proj1 (proj2 (Hsettled (Scenario.order "PaymentSettled") eq_refl))).
Defined.

Lemma transition_iff_not_arranging_witness :
  transitionCalls
    (snd (Webhook.handle "XenditPlugin"
            (Scenario.deployment (Some "xyz") [Scenario.xenditMethod]
               (Some (Scenario.order "AddingItems")) Scenario.accepted
               Scenario.settled)
            (Some "xyz") Scenario.request))
  = [TransitionToState "tenant1" (IdNumber 55) "ArrangingPayment"].
Proof.
  refine (proj1 (proj2
    (transition_iff_not_arranging string "XenditPlugin"
       (Scenario.options (Some "xyz")) (Scenario.methods [Scenario.xenditMethod])
       (Scenario.store (Some (Scenario.order "AddingItems")) Scenario.accepted
          Scenario.settled)
       Scenario.contexts (Some "xyz") Scenario.request Scenario.notification
       (Scenario.order "AddingItems") eq_refl eq_refl eq_refl) _)).
  cbn. discriminate.
Defined.

Lemma unknown_order_throws_witness :
  fst (Webhook.handle "XenditPlugin"
         (Scenario.deployment (Some "xyz") [Scenario.xenditMethod] None
            Scenario.accepted Scenario.settled)
         (Some "xyz") Scenario.request)
  = inl (Error "Unable to find order ORD123, unable to settle payment inv-1!").
Proof.
  refine (proj1 (proj2 (proj2
    (unknown_order_throws string "XenditPlugin"
       (Scenario.options (Some "xyz")) (Scenario.methods [Scenario.xenditMethod])
       (Scenario.store None Scenario.accepted Scenario.settled)
       Scenario.contexts (Some "xyz") Scenario.request Scenario.notification
       eq_refl eq_refl eq_refl)))).
Defined.

Lemma refused_transition_stops_witness :
  fst (Webhook.handle "XenditPlugin"
         (Scenario.deployment (Some "xyz") [Scenario.xenditMethod]
            (Some (Scenario.order "Cancelled")) Scenario.refused
            Scenario.settled)
         (Some "xyz") Scenario.request)
  = inr tt
  /\ addPaymentCalls
       (snd (Webhook.handle "XenditPlugin"
               (Scenario.deployment (Some "xyz") [Scenario.xenditMethod]
                  (Some (Scenario.order "Cancelled")) Scenario.refused
                  Scenario.settled)
               (Some "xyz") Scenario.request))
     = [].
Proof.
  pose proof
    (refused_transition_stops string "XenditPlugin"
       (Scenario.options (Some "xyz")) (Scenario.methods [Scenario.xenditMethod])
       (Scenario.store (Some (Scenario.order "Cancelled")) Scenario.refused
          Scenario.settled)
       Scenario.contexts (Some "xyz") Scenario.request Scenario.notification
       (Scenario.order "Cancelled")
       "Cannot transition Order from Cancelled to ArrangingPayment"
       eq_refl eq_refl eq_refl) as H.
  cbn [Scenario.order Order.state] in H.
  destruct (H ltac:(discriminate) eq_refl) as (Hreturns & Hnone & _).
  split; [exact Hreturns | exact Hnone].
Defined.

Lemma missing_payment_method_throws_witness :
  fst (Webhook.handle "XenditPlugin"
         (Scenario.deployment (Some "xyz") [Scenario.otherMethod]
            (Some (Scenario.order "AddingItems")) Scenario.accepted
            Scenario.settled)
         (Some "xyz") Scenario.request)
  = inl (InternalServerError
           "[XenditPlugin] Could not find Xendit PaymentMethod")
  /\ addPaymentCalls
       (snd (Webhook.handle "XenditPlugin"
               (Scenario.deployment (Some "xyz") [Scenario.otherMethod]
                  (Some (Scenario.order "AddingItems")) Scenario.accepted
                  Scenario.settled)
               (Some "xyz") Scenario.request))
     = [].
Proof.
  assert (Hnone : forall m, In m [Scenario.otherMethod] ->
                  ConfigurableOperation.code (PaymentMethod.handler m)
                  <> xenditPaymentMethodHandler.code).
  { intros m [<-|[]]. cbn. discriminate. }
  destruct
    (missing_payment_method_throws string "XenditPlugin"
       (Scenario.options (Some "xyz")) (Scenario.methods [Scenario.otherMethod])
       (Scenario.store (Some (Scenario.order "AddingItems")) Scenario.accepted
          Scenario.settled)
       Scenario.contexts (Some "xyz") Scenario.request Scenario.notification
       (Scenario.order "AddingItems") eq_refl eq_refl eq_refl
       (or_intror (ex_intro _ (Scenario.order "ArrangingPayment") eq_refl))
       Hnone) as (Hthrows & Hadd & _).
  split; [exact Hthrows | exact Hadd].
Defined.

(** * Further properties *)

(** ** Every run of the webhook *)

(** The three ways [recordPayment] can go, as rewritten goals. *)
Ltac record_cases l this ctx order code payment :=
  let method := fresh "method" in
  let Hmethod := fresh "Hmethod" in
  let Hadd := fresh "Hadd" in
  destruct (Webhook.resolvedMethod this ctx) as [method|] eqn:Hmethod;
  [ destruct (addPaymentToOrder (orderService this) ctx (Order.id order)
                (Webhook.paymentInput method payment))
      as [?settled|?errorCode ?msg] eqn:Hadd;
    [ rewrite (recordPayment_added _ l this ctx order code payment method _ _
                 Hmethod Hadd)
    | rewrite (recordPayment_rejected _ l this ctx order code payment method
                 _ _ _ Hmethod Hadd) ]
  | rewrite (recordPayment_missing _ l this ctx order code payment _ Hmethod) ].

(** The eleven ways a run of [webhook] can go: each goal has the run
    rewritten to its result and trace, and the tests that led there as
    hypotheses. *)
Ltac webhook_cases l this callbackToken request :=
  let Htok := fresh "Htok" in
  let Hverify := fresh "Hverify" in
  let Hbody := fresh "Hbody" in
  let Hfound := fresh "Hfound" in
  let Hstate := fresh "Hstate" in
  let Htr := fresh "Htr" in
  let payment := fresh "xenditPayment" in
  let order := fresh "order" in
  unfold Webhook.handle, run;
  destruct (Js.truthy_str callbackToken) eqn:Htok;
  [ destruct (verifyCallback (xenditService this) callbackToken)
      as [?e|?answer] eqn:Hverify;
    [ rewrite (webhook_verification_throws _ l this callbackToken request _ []
                 Htok Hverify)
    | destruct (RequestWithRawBody.body request) as [payment|] eqn:Hbody;
      [ rewrite (webhook_reconciles _ l this callbackToken request payment _ []
                   Htok Hverify Hbody);
        destruct (findOneByCode (orderService this)
                    (Webhook.contextOf this request payment)
                    (XenditCallbackRequest.external_id payment))
          as [order|] eqn:Hfound;
        [ destruct (String.eqb_spec (Order.state order) "ArrangingPayment")
            as [Hstate|Hstate];
          [ rewrite (reconcile_arranging _ l this request payment order _
                       Hfound Hstate);
            record_cases l this (Webhook.contextOf this request payment) order
              (XenditCallbackRequest.external_id payment) payment
          | destruct (transitionToState (orderService this)
                        (Webhook.contextOf this request payment)
                        (Order.id order) "ArrangingPayment")
              as [?order'|?refusal] eqn:Htr;
            [ rewrite (reconcile_transitioned _ l this request payment order _
                         _ Hfound Hstate Htr);
              record_cases l this (Webhook.contextOf this request payment)
                order (XenditCallbackRequest.external_id payment) payment
            | rewrite (reconcile_refused _ l this request payment order _ _
                         Hfound Hstate Htr) ] ]
        | rewrite (reconcile_not_found _ l this request payment _ Hfound) ]
      | rewrite (webhook_no_body _ l this callbackToken request _ [] Htok
                   Hverify Hbody) ] ]
  | rewrite (webhook_missing_header _ l this callbackToken request [] Htok) ];
  cbn [fst snd app].

Section Invariants.

Variable RequestContext : Type.
Variable loggerCtx : string.
Variable this : XenditController.t RequestContext.

Implicit Types (request : RequestWithRawBody.t) (callbackToken : option string).

(** X1.  Every run of the webhook, whatever the services answer, sends at
    most one HTTP response, and a response that is sent is the last thing
    the run does. *)
Theorem one_response_and_it_is_last callbackToken request :
  (length (responses (snd (Webhook.handle loggerCtx this callbackToken request)))
   <= 1)%nat
  /\ forall status body,
       In (ResponseSend status body)
          (snd (Webhook.handle loggerCtx this callbackToken request)) ->
       exists before,
         snd (Webhook.handle loggerCtx this callbackToken request)
         = (before ++ [ResponseSend status body])%list
         /\ responses before = [].
Proof.
  webhook_cases loggerCtx this callbackToken request.
  all: (split; [cbn; lia|]).
  all: intros status body Hin.
  all: match goal with
       | |- exists before, ?tr = _ /\ _ => exists (removelast tr)
       end.
  all: cbn in Hin |- *.
  all: repeat (destruct Hin as [Hin|Hin]; [try discriminate Hin|]);
       try contradiction.
  all: injection Hin as <- <-; split; reflexivity.
Qed.

(** X2.  The service methods are called in one fixed order
    (verifyCallback, create, findOneByCode, transitionToState, find,
    addPaymentToOrder, the transition possibly left out), each at most once
    per run: the calls of a run are a prefix of that sequence. *)
Theorem calls_in_order_each_at_most_once callbackToken request :
  (Calls.prefixb
     (Calls.methods (snd (Webhook.handle loggerCtx this callbackToken request)))
     Calls.withTransition
   || Calls.prefixb
        (Calls.methods
           (snd (Webhook.handle loggerCtx this callbackToken request)))
        Calls.withoutTransition) = true
  /\ NoDup
       (Calls.methods
          (snd (Webhook.handle loggerCtx this callbackToken request))).
Proof.
  webhook_cases loggerCtx this callbackToken request.
  all: split; [reflexivity|].
  all: cbn.
  all: repeat (constructor; [cbn; intuition discriminate|]).
  all: constructor.
Qed.

(** X3.  A 200 "Ok" is sent only for a notification whose order was found,
    whose payment method was resolved and whose addPaymentToOrder call,
    the only one of the run, was answered with an Order. *)
Theorem ok_only_after_payment_added callbackToken request :
  In (ResponseSend 200 "Ok")
     (snd (Webhook.handle loggerCtx this callbackToken request)) ->
  exists xenditPayment order method settled,
    RequestWithRawBody.body request = Some xenditPayment
    /\ findOneByCode (orderService this)
         (Webhook.contextOf this request xenditPayment)
         (XenditCallbackRequest.external_id xenditPayment) = Some order
    /\ Webhook.resolvedMethod this
         (Webhook.contextOf this request xenditPayment) = Some method
    /\ addPaymentToOrder (orderService this)
         (Webhook.contextOf this request xenditPayment) (Order.id order)
         (Webhook.paymentInput method xenditPayment) = PaymentAdded settled
    /\ addPaymentCalls
         (snd (Webhook.handle loggerCtx this callbackToken request))
       = [AddPaymentToOrder (Webhook.contextOf this request xenditPayment)
            (Order.id order) (Webhook.paymentInput method xenditPayment)].
Proof.
  webhook_cases loggerCtx this callbackToken request.
  all: intros Hin; cbn in Hin.
  all: repeat (destruct Hin as [Hin|Hin]; [try discriminate Hin|]);
       try contradiction.
  all: eexists _, _, _, _; repeat split; eassumption.
Qed.


(** X5.  A run that returns without having sent a response ends with a
    transitionToState or addPaymentToOrder call followed by the error line
    logged for its answer: the HTTP caller is left without an answer
    exactly after a refused transition or a rejected payment. *)
Theorem silent_return callbackToken request :
  fst (Webhook.handle loggerCtx this callbackToken request) = inr tt ->
  responses (snd (Webhook.handle loggerCtx this callbackToken request)) = [] ->
  exists before storeCall msg,
    snd (Webhook.handle loggerCtx this callbackToken request)
    = (before ++ [storeCall; LoggerError msg loggerCtx])%list
    /\ (isTransition storeCall = true \/ isAddPayment storeCall = true).
Proof.
  webhook_cases loggerCtx this callbackToken request.
  all: intros Hreturn Hsilent; try discriminate Hreturn;
       try discriminate Hsilent.
  all: match goal with
       | |- exists before storeCall msg, ?tr = _ /\ _ =>
           exists (removelast (removelast tr))
       end.
  all: cbn; eexists _, _; split; [reflexivity|]; cbn; auto.
Qed.

(** X6.  The three 400 answers, and exactly when each is sent: the
    missing-header message when the token is absent or empty; the
    bad-signature message when a token is presented and the verification
    throws; the no-payment message when a token is presented, the
    verification returns (whatever it returns) and the request has no
    body. *)
Theorem bad_request_answers callbackToken request :
  (responses (snd (Webhook.handle loggerCtx this callbackToken request))
   = [ResponseSend 400 "Missing xendit-signature header"]
   <-> (callbackToken = None \/ callbackToken = Some ""))
  /\ (responses (snd (Webhook.handle loggerCtx this callbackToken request))
      = [ResponseSend 400 "Error verifying Xendit webhook signature"]
      <-> (Js.truthy_str callbackToken = true
           /\ exists e,
                verifyCallback (xenditService this) callbackToken = inl e))
  /\ (responses (snd (Webhook.handle loggerCtx this callbackToken request))
      = [ResponseSend 400 "No payment intent in the event payload"]
      <-> (Js.truthy_str callbackToken = true
           /\ (exists answer,
                 verifyCallback (xenditService this) callbackToken
                 = inr answer)
           /\ RequestWithRawBody.body request = None)).
Proof.
  assert (Hfalsy : Js.truthy_str callbackToken = false
                   <-> (callbackToken = None \/ callbackToken = Some "")).
  { destruct callbackToken as [[|c s]|]; cbn; split; intros H; auto;
      try discriminate H; destruct H as [H|H]; discriminate H. }
  webhook_cases loggerCtx this callbackToken request.
  all: cbn [responses filter isResponse].
  all: (split; [split | split; split]); intros H.
  all: first
         [ reflexivity
         | discriminate H
         | apply Hfalsy; reflexivity
         | apply Hfalsy in H; discriminate H
         | solve [ repeat split; try reflexivity; eexists; reflexivity ]
         | destruct H as [H1 H2];
           first [ discriminate H1
                 | destruct H2 as [e' H2]; discriminate H2
                 | destruct H2 as [[a' H2] H3];
                   first [ discriminate H2 | discriminate H3 ] ] ].
Qed.

(** X7.  The verification is only ever asked about the token that was
    presented, and never about an absent or empty one. *)
Theorem verification_only_of_presented_token callbackToken request token :
  In (VerifyCallback token)
     (snd (Webhook.handle loggerCtx this callbackToken request)) ->
  token = callbackToken /\ exists s, token = Some s /\ s <> "".
Proof.
  assert (Htruthy : Js.truthy_str callbackToken = true ->
                    exists s, callbackToken = Some s /\ s <> "").
  { destruct callbackToken as [[|c s]|]; cbn; intros H; try discriminate H.
    eexists; split; [reflexivity | discriminate]. }
  webhook_cases loggerCtx this callbackToken request.
  all: intros Hin; cbn in Hin.
  all: repeat (destruct Hin as [Hin|Hin]; [try discriminate Hin|]);
       try contradiction.
  all: injection Hin as <-; split; [reflexivity | apply Htruthy; reflexivity].
Qed.

(** X19.  An empty x-callback-token header is handled exactly as an absent
    one: same result, same trace, and no service is called. *)
Theorem empty_token_is_a_missing_header request :
  Webhook.handle loggerCtx this (Some "") request
  = Webhook.handle loggerCtx this None request
  /\ serviceCalls (snd (Webhook.handle loggerCtx this (Some "") request)) = [].
Proof.
  unfold Webhook.handle, run.
  rewrite (webhook_missing_header _ loggerCtx this (Some "") request []
             eq_refl).
  rewrite (webhook_missing_header _ loggerCtx this None request [] eq_refl).
  split; reflexivity.
Qed.

(** X20.  A request without a body never reaches the Order Store, and no
    context is created for it, whatever the token and whatever the
    verification does. *)
Theorem missing_body_reaches_no_store callbackToken request :
  RequestWithRawBody.body request = None ->
  orderStoreCalls (snd (Webhook.handle loggerCtx this callbackToken request))
  = []
  /\ forall args,
       ~ In (CreateContext args)
            (snd (Webhook.handle loggerCtx this callbackToken request)).
Proof.
  intros Hnone.
  webhook_cases loggerCtx this callbackToken request.
  all: try discriminate Hnone.
  all: split; [reflexivity|].
  all: intros args Hin; cbn [In] in Hin.
  all: repeat (destruct Hin as [Hin|Hin]; [discriminate Hin|]).
  all: exact Hin.
Qed.

End Invariants.

(** ** More on the deployed controller *)

Section DeployedRuns.

Variable RequestContext : Type.
Variable loggerCtx : string.
Variable connection : TransactionalConnection RequestContext.
Variable orderService : OrderService RequestContext.
Variable requestContextService : RequestContextService RequestContext.

Abbreviation deployed options :=
  (XenditPlugin.controller options connection orderService
     requestContextService).

Implicit Types (options : option XenditPluginOptions.t).
Implicit Types (order : Order.t) (xenditPayment : XenditCallbackRequest.t).
Implicit Types (request : RequestWithRawBody.t) (callbackToken : option string).

(** X8.  What the deployed webhook does with a request does not depend on
    the plugin options: two deployments that differ only in their options,
    and so in their callback token, return the same result and leave the
    same trace for every presented token and request. *)
Theorem webhook_ignores_options options options' callbackToken request :
  Webhook.handle loggerCtx (deployed options) callbackToken request
  = Webhook.handle loggerCtx (deployed options') callbackToken request.
Proof.
  unfold Webhook.handle, run.
  destruct (Js.truthy_str callbackToken) eqn:Htok.
  - destruct (RequestWithRawBody.body request) as [xenditPayment|] eqn:Hbody.
    + rewrite (webhook_reconciles _ loggerCtx (deployed options) callbackToken
                 request xenditPayment _ [] Htok eq_refl Hbody).
      rewrite (webhook_reconciles _ loggerCtx (deployed options') callbackToken
                 request xenditPayment _ [] Htok eq_refl Hbody).
      reflexivity.
    + rewrite (webhook_no_body _ loggerCtx (deployed options) callbackToken
                 request _ [] Htok eq_refl Hbody).
      rewrite (webhook_no_body _ loggerCtx (deployed options') callbackToken
                 request _ [] Htok eq_refl Hbody).
      reflexivity.
  - rewrite (webhook_missing_header _ loggerCtx (deployed options)
               callbackToken request [] Htok).
    rewrite (webhook_missing_header _ loggerCtx (deployed options')
               callbackToken request [] Htok).
    reflexivity.
Qed.

(** X9.  When the order is located, its state is or has been moved to
    ArrangingPayment, the payment method is resolved, and the Order Store
    answers addPaymentToOrder with an error result: the webhook logs
    "Error adding payment to order <code>: <message>" and returns normally
    without sending any response. *)
Theorem rejected_payment_is_logged_not_answered options callbackToken request
    xenditPayment order method errorCode msg :
  Js.truthy_str callbackToken = true ->
  RequestWithRawBody.body request = Some xenditPayment ->
  findOneByCode orderService
    (Webhook.contextOf (deployed options) request xenditPayment)
    (XenditCallbackRequest.external_id xenditPayment) = Some order ->
  (Order.state order = "ArrangingPayment"
   \/ exists order',
        transitionToState orderService
          (Webhook.contextOf (deployed options) request xenditPayment)
          (Order.id order) "ArrangingPayment" = Transitioned order') ->
  Webhook.resolvedMethod (deployed options)
    (Webhook.contextOf (deployed options) request xenditPayment)
  = Some method ->
  addPaymentToOrder orderService
    (Webhook.contextOf (deployed options) request xenditPayment)
    (Order.id order) (Webhook.paymentInput method xenditPayment)
  = AddPaymentError errorCode msg ->
  fst (Webhook.handle loggerCtx (deployed options) callbackToken request)
  = inr tt
  /\ responses
       (snd (Webhook.handle loggerCtx (deployed options) callbackToken request))
     = []
  /\ exists before,
       snd (Webhook.handle loggerCtx (deployed options) callbackToken request)
       = (before
            ++ [ AddPaymentToOrder
                   (Webhook.contextOf (deployed options) request xenditPayment)
                   (Order.id order)
                   (Webhook.paymentInput method xenditPayment);
                 LoggerError
                   ("Error adding payment to order "
                      ++ XenditCallbackRequest.external_id xenditPayment
                      ++ ": " ++ msg)
                   loggerCtx ])%list.
Proof.
  intros Htok Hbody Hfound Hready Hmethod Hadd.
  rewrite (handle_reconciles _ loggerCtx options connection orderService
             requestContextService _ _ _ Htok Hbody).
  destruct (String.eqb_spec (Order.state order) "ArrangingPayment")
    as [Hstate|Hstate].
  - rewrite (reconcile_arranging _ loggerCtx (deployed options) request
               xenditPayment order _ Hfound Hstate).
    rewrite (recordPayment_rejected _ loggerCtx (deployed options) _ order _
               xenditPayment method errorCode msg _ Hmethod Hadd).
    cbn [fst snd app]. repeat split.
    eexists (_ :: _ :: _ :: _ :: _ :: _ :: nil). reflexivity.
  - destruct Hready as [Hready|[order' Htr]]; [contradiction|].
    rewrite (reconcile_transitioned _ loggerCtx (deployed options) request
               xenditPayment order order' _ Hfound Hstate Htr).
    rewrite (recordPayment_rejected _ loggerCtx (deployed options) _ order _
               xenditPayment method errorCode msg _ Hmethod Hadd).
    cbn [fst snd app]. repeat split.
    eexists (_ :: _ :: _ :: _ :: _ :: _ :: _ :: nil). reflexivity.
Qed.

End DeployedRuns.

(** ** The channel token in the description *)

Lemma split_without_separator (sep : ascii) (s : string) :
  Js.includes sep s = false -> Js.split sep s = [s].
Proof.
  induction s as [|c rest IH]; cbn [Js.includes Js.split]; [reflexivity|].
  intros H. apply orb_false_iff in H. destruct H as [Hc Hrest].
  rewrite Hc, (IH Hrest). reflexivity.
Qed.

Lemma split_head_has_no_separator (sep : ascii) (s : string) :
  Js.includes sep (List.hd EmptyString (Js.split sep s)) = false.
Proof.
  induction s as [|c rest IH]; cbn [Js.split]; [reflexivity|].
  destruct (Ascii.eqb c sep) eqn:Hc; [reflexivity|].
  destruct (Js.split sep rest) as [|piece pieces].
  - cbn. rewrite Hc. reflexivity.
  - cbn [List.hd Js.includes] in *. rewrite Hc, IH. reflexivity.
Qed.

Section ChannelToken.

Variable RequestContext : Type.
Variable loggerCtx : string.
Variable this : XenditController.t RequestContext.

Implicit Types (xenditPayment : XenditCallbackRequest.t).
Implicit Types (request : RequestWithRawBody.t) (callbackToken : option string).

(** X10.  The only context a run creates is an admin-API, English context
    for the request itself, whose channel token is the part of the
    notification's description before its first underscore: the whole
    description when it has no underscore, and never a token containing
    an underscore. *)
Theorem context_is_created_from_description callbackToken request args :
  In (CreateContext args)
     (snd (Webhook.handle loggerCtx this callbackToken request)) ->
  exists xenditPayment,
    RequestWithRawBody.body request = Some xenditPayment
    /\ args = Webhook.createArgs request xenditPayment
    /\ CreateArgs.apiType args = "admin"
    /\ CreateArgs.languageCode args = "en"
    /\ CreateArgs.req args = request
    /\ Js.includes "_" (CreateArgs.channelOrToken args) = false
    /\ (forall channel rest,
          XenditCallbackRequest.description xenditPayment
          = channel ++ "_" ++ rest ->
          Js.includes "_" channel = false ->
          CreateArgs.channelOrToken args = channel)
    /\ (Js.includes "_" (XenditCallbackRequest.description xenditPayment)
        = false ->
        CreateArgs.channelOrToken args
        = XenditCallbackRequest.description xenditPayment).
Proof.
  assert (Hargs : forall p,
            Js.includes "_"
              (CreateArgs.channelOrToken (Webhook.createArgs request p)) = false
            /\ (forall channel rest,
                  XenditCallbackRequest.description p = channel ++ "_" ++ rest ->
                  Js.includes "_" channel = false ->
                  CreateArgs.channelOrToken (Webhook.createArgs request p)
                  = channel)
            /\ (Js.includes "_" (XenditCallbackRequest.description p) = false ->
                CreateArgs.channelOrToken (Webhook.createArgs request p)
                = XenditCallbackRequest.description p)).
  { intros p. unfold Webhook.createArgs. cbn [CreateArgs.channelOrToken].
    split; [apply split_head_has_no_separator|]. split.
    - intros channel rest -> Hchannel. apply split_head. exact Hchannel.
    - intros H. rewrite (split_without_separator _ _ H). reflexivity. }
  webhook_cases loggerCtx this callbackToken request.
  all: intros Hin; cbn [In] in Hin.
  all: repeat (destruct Hin as [Hin|Hin]; [try discriminate Hin|]);
       try contradiction.
  all: injection Hin as <-.
  all: eexists; split; [reflexivity|]; split; [reflexivity|].
  all: split; [reflexivity|]; split; [reflexivity|]; split; [reflexivity|].
  all: apply Hargs.
Qed.

End ChannelToken.

(** ** The invoice service *)

Section InvoiceService.

Variable ShopContext : Type.
Variable channelToken : ShopContext -> string.
Variable options : option XenditPluginOptions.t.
Variable findOne : ID -> option OrderEntity.t.

Abbreviation createPayment :=
  (XenditInvoices.createPayment channelToken options findOne).

Implicit Types (ctx : ShopContext) (order : OrderEntity.t).

(** X11.  [getCustomer] returns the order's own customer, without reading
    the repository, when that customer has a non-empty e-mail address;
    otherwise it reads the order once from the repository.  It throws
    exactly when the order carries no such customer and the repository has
    no order under that id or an order without customer, and then the
    error is "Customer not found.". *)
Theorem getCustomer_sources order :
  (forall c, OrderEntity.customer order = Some c ->
             Customer.emailAddress c <> "" ->
             XenditInvoices.getCustomer findOne order = (inr c, []))
  /\ ((forall c, OrderEntity.customer order = Some c ->
                 Customer.emailAddress c = "") ->
      snd (XenditInvoices.getCustomer findOne order)
      = [XenditInvoices.RepositoryFindOne (Order.id (OrderEntity.order order))])
  /\ (forall e,
        fst (XenditInvoices.getCustomer findOne order) = inl e
        <-> (e = Error "Customer not found."
             /\ (forall c, OrderEntity.customer order = Some c ->
                           Customer.emailAddress c = "")
             /\ (findOne (Order.id (OrderEntity.order order)) = None
                 \/ exists stored,
                      findOne (Order.id (OrderEntity.order order)) = Some stored
                      /\ OrderEntity.customer stored = None))).
Proof.
  unfold XenditInvoices.getCustomer.
  destruct (OrderEntity.customer order) as [own|] eqn:Hown.
  - destruct (String.eqb_spec (Customer.emailAddress own) "") as [Hmail|Hmail].
    + cbn [negb]. split; [|split].
      * intros c [= <-] Hc. contradiction.
      * intros _.
        destruct (findOne (Order.id (OrderEntity.order order))) as [stored|];
          [destruct (OrderEntity.customer stored)|]; reflexivity.
      * intros e.
        destruct (findOne (Order.id (OrderEntity.order order))) as [stored|];
          [destruct (OrderEntity.customer stored) as [c|] eqn:Hc|];
          cbn [fst]; split.
        -- intros H. discriminate H.
        -- intros (_ & _ & [H|(s & [= <-] & H)]); congruence.
        -- intros [= <-]. split; [reflexivity|]. split.
           ++ intros c [= <-]. exact Hmail.
           ++ right. eexists. split; [reflexivity | exact Hc].
        -- intros (-> & _). reflexivity.
        -- intros [= <-]. split; [reflexivity|]. split.
           ++ intros c [= <-]. exact Hmail.
           ++ left. reflexivity.
        -- intros (-> & _). reflexivity.
    + cbn [negb]. split; [|split].
      * intros c [= <-] _. reflexivity.
      * intros H. exfalso. exact (Hmail (H own eq_refl)).
      * intros e. cbn [fst]. split.
        -- intros H. discriminate H.
        -- intros (_ & H & _). exfalso. exact (Hmail (H own eq_refl)).
  - split; [|split].
    + intros c H. discriminate H.
    + intros _.
      destruct (findOne (Order.id (OrderEntity.order order))) as [stored|];
        [destruct (OrderEntity.customer stored)|]; reflexivity.
    + intros e.
      destruct (findOne (Order.id (OrderEntity.order order))) as [stored|];
        [destruct (OrderEntity.customer stored) as [c|] eqn:Hc|];
        cbn [fst]; split.
      * intros H. discriminate H.
      * intros (_ & _ & [H|(s & [= <-] & H)]); congruence.
      * intros [= <-]. split; [reflexivity|]. split.
        -- intros c H. discriminate H.
        -- right. eexists. split; [reflexivity | exact Hc].
      * intros (-> & _). reflexivity.
      * intros [= <-]. split; [reflexivity|]. split.
        -- intros c H. discriminate H.
        -- left. reflexivity.
      * intros (-> & _). reflexivity.
Qed.

(** X12.  [createPayment] fails exactly when the plugin options are unset
    or the customer cannot be resolved, and whatever went wrong the caller
    only ever sees Error "Error on Creating Xendit Payment": the
    "Customer not found." of [getCustomer] never escapes. *)
Theorem createPayment_masks_errors ctx order e :
  fst (createPayment ctx order) = inl e
  <-> (e = Error "Error on Creating Xendit Payment"
       /\ (options = None
           \/ exists cause,
                fst (XenditInvoices.getCustomer findOne order) = inl cause)).
Proof.
  unfold XenditInvoices.createPayment.
  destruct (XenditInvoices.getCustomer findOne order) as [[cause|customer] events].
  - cbn [fst]. split.
    + intros [= <-]. split; [reflexivity|]. right. exists cause. reflexivity.
    + intros (-> & _). reflexivity.
  - destruct options as [o|]; cbn [fst]; split.
    + intros H. discriminate H.
    + intros (_ & [H|(cause & H)]); discriminate H.
    + intros [= <-]. split; [reflexivity|]. left. reflexivity.
    + intros (-> & _). reflexivity.
Qed.

(** X13.  In every invoice request [createPayment] builds, the invoice
    duration is never 0: it is the configured duration when that is set
    and not 0, and one day (86400 seconds) when it is unset or 0.  The
    payment channels are the configured list, or the empty list when none
    is configured. *)
Theorem createPayment_invoice_duration ctx order payment events :
  createPayment ctx order = (inr payment, events) ->
  exists o,
    options = Some o
    /\ InvoicePayload.invoice_duration (InvoiceRequest.payload payment) <> 0%Z
    /\ (forall d, XenditPluginOptions.invoiceDuration o = Some d -> d <> 0%Z ->
                  InvoicePayload.invoice_duration
                    (InvoiceRequest.payload payment) = d)
    /\ (XenditPluginOptions.invoiceDuration o = None
        \/ XenditPluginOptions.invoiceDuration o = Some 0%Z ->
        InvoicePayload.invoice_duration (InvoiceRequest.payload payment)
        = 86400%Z)
    /\ (forall channels, XenditPluginOptions.paymentMethods o = Some channels ->
                         InvoicePayload.payment_methods
                           (InvoiceRequest.payload payment) = channels)
    /\ (XenditPluginOptions.paymentMethods o = None ->
        InvoicePayload.payment_methods (InvoiceRequest.payload payment) = []).
Proof.
  unfold XenditInvoices.createPayment.
  destruct (XenditInvoices.getCustomer findOne order) as [[cause|customer] log];
    [intros H; discriminate H|].
  destruct options as [o|]; [|intros H; discriminate H].
  intros [= <- _]. exists o. split; [reflexivity|].
  cbn [InvoiceRequest.payload InvoicePayload.invoice_duration
       InvoicePayload.payment_methods].
  unfold XenditInvoices.orNumber, XenditInvoices.orArray.
  destruct (XenditPluginOptions.invoiceDuration o) as [d|].
  - destruct (Z.eqb_spec d 0) as [->|Hd].
    + repeat split; try discriminate; try reflexivity.
      * intros d' [= <-] H. contradiction.
      * intros channels ->. reflexivity.
      * intros ->. reflexivity.
    + repeat split; try assumption.
      * intros d' [= <-] _. reflexivity.
      * intros [H|[= H]]; [discriminate H | contradiction].
      * intros channels ->. reflexivity.
      * intros ->. reflexivity.
  - repeat split; try discriminate; try reflexivity.
    * intros channels ->. reflexivity.
    * intros ->. reflexivity.
Qed.

(** X14.  Every invoice request [createPayment] builds goes to the
    invoices endpoint with the API key as user name and an empty
    password, carries the order's code as external id, the order's total
    as amount and currency IDR, and the API key has been written to the
    console. *)
Theorem createPayment_credentials ctx order payment events :
  createPayment ctx order = (inr payment, events) ->
  exists o,
    options = Some o
    /\ InvoiceRequest.url payment = "https://api.xendit.co/v2/invoices"
    /\ InvoiceRequest.username payment = XenditPluginOptions.apiKey o
    /\ InvoiceRequest.password payment = ""
    /\ InvoicePayload.external_id (InvoiceRequest.payload payment)
       = Order.code (OrderEntity.order order)
    /\ InvoicePayload.amount (InvoiceRequest.payload payment)
       = OrderEntity.totalWithTax order
    /\ InvoicePayload.currency (InvoiceRequest.payload payment) = "IDR"
    /\ In (XenditInvoices.ConsoleLog "Xendit API Key : "
             (XenditInvoices.ArgString (XenditPluginOptions.apiKey o)))
          events.
Proof.
  unfold XenditInvoices.createPayment.
  destruct (XenditInvoices.getCustomer findOne order) as [[cause|customer] log];
    [intros H; discriminate H|].
  destruct options as [o|]; [|intros H; discriminate H].
  intros [= <- <-]. exists o. repeat split.
  apply in_or_app. right. left. reflexivity.
Qed.

End InvoiceService.

(** ** From the invoice to its notification *)

Section RoundTrip.

Variable ShopContext : Type.
Variable channelToken : ShopContext -> string.
Variable options : option XenditPluginOptions.t.
Variable findOne : ID -> option OrderEntity.t.

Variable RequestContext : Type.
Variable loggerCtx : string.
Variable this : XenditController.t RequestContext.

Implicit Types (ctx : ShopContext) (order : OrderEntity.t).
Implicit Types (xenditPayment : XenditCallbackRequest.t).
Implicit Types (request : RequestWithRawBody.t) (callbackToken : option string).

(** Once the token is there, the verification has returned and the body is
    there, the order is looked up. *)
Lemma lookup_is_made callbackToken request xenditPayment answer :
  Js.truthy_str callbackToken = true ->
  verifyCallback (xenditService this) callbackToken = inr answer ->
  RequestWithRawBody.body request = Some xenditPayment ->
  In (FindOneByCode (Webhook.contextOf this request xenditPayment)
        (XenditCallbackRequest.external_id xenditPayment))
     (snd (Webhook.handle loggerCtx this callbackToken request)).
Proof.
  intros Htoken Hanswer Hpayload.
  webhook_cases loggerCtx this callbackToken request.
  all: try discriminate Htoken; try discriminate Hanswer;
       try discriminate Hpayload.
  all: injection Hpayload as <-.
  all: cbn [In]; auto 8.
Qed.

(** X15.  Round trip of the invoice description.  When the channel token
    has no underscore, a notification that echoes the description and the
    external id of an invoice built by [createPayment] makes the webhook
    create its context for that same channel token and look the order up
    under that order's code. *)
Theorem invoice_notification_round_trip ctx order payment events
    callbackToken request xenditPayment answer :
  XenditInvoices.createPayment channelToken options findOne ctx order
  = (inr payment, events) ->
  Js.includes "_" (channelToken ctx) = false ->
  XenditCallbackRequest.description xenditPayment
  = InvoicePayload.description (InvoiceRequest.payload payment) ->
  XenditCallbackRequest.external_id xenditPayment
  = InvoicePayload.external_id (InvoiceRequest.payload payment) ->
  Js.truthy_str callbackToken = true ->
  verifyCallback (xenditService this) callbackToken = inr answer ->
  RequestWithRawBody.body request = Some xenditPayment ->
  CreateArgs.channelOrToken (Webhook.createArgs request xenditPayment)
  = channelToken ctx
  /\ In (FindOneByCode
           (create (requestContextService this)
              {| CreateArgs.apiType := "admin";
                 CreateArgs.channelOrToken := channelToken ctx;
                 CreateArgs.req := request;
                 CreateArgs.languageCode := "en" |})
           (Order.code (OrderEntity.order order)))
        (snd (Webhook.handle loggerCtx this callbackToken request)).
Proof.
  intros Hcreated Hchannel Hdescription Hexternal Htoken Hanswer Hpayload.
  assert (Hpayment :
            InvoicePayload.description (InvoiceRequest.payload payment)
            = channelToken ctx ++ "_"
                ++ XenditInvoices.showId (Order.id (OrderEntity.order order))
            /\ InvoicePayload.external_id (InvoiceRequest.payload payment)
               = Order.code (OrderEntity.order order)).
  { revert Hcreated. unfold XenditInvoices.createPayment.
    destruct (XenditInvoices.getCustomer findOne order) as [[cause|c] log];
      [intros H; discriminate H|].
    destruct options as [o|]; [|intros H; discriminate H].
    intros [= <- _]. split; reflexivity. }
  destruct Hpayment as [Hd He].
  assert (Hrecovered :
            CreateArgs.channelOrToken (Webhook.createArgs request xenditPayment)
            = channelToken ctx).
  { unfold Webhook.createArgs. cbn [CreateArgs.channelOrToken].
    rewrite Hdescription, Hd. apply split_head. exact Hchannel. }
  split; [exact Hrecovered|].
  pose proof (lookup_is_made callbackToken request xenditPayment answer
                Htoken Hanswer Hpayload) as Hlookup.
  unfold Webhook.contextOf in Hlookup.
  rewrite Hexternal, He in Hlookup.
  unfold Webhook.createArgs in *. cbn [CreateArgs.channelOrToken] in Hrecovered.
  rewrite Hrecovered in Hlookup. exact Hlookup.
Qed.


End RoundTrip.

(** ** The payment method handler, the resolver *)

(** X17.  For the metadata the webhook hands over, the notification body,
    the handler's [createPayment] reports the payment as Settled for the
    amount it is given, with the metadata unchanged and with no
    transaction id: a notification has no [xenditPaymentId] property. *)
Theorem createPayment_of_notification_has_no_transaction_id
    (Ctx Ord Args : Type) (ctx : Ctx) (order : Ord) (amount : Z) (args : Args)
    (xenditPayment : XenditCallbackRequest.t) :
  xenditPaymentMethodHandler.createPayment ctx order amount args
    (Metadata.ofNotification xenditPayment)
  = {| CreatePaymentResult.amount := amount;
       CreatePaymentResult.state := CreatePaymentResult.Settled;
       CreatePaymentResult.transactionId := None;
       CreatePaymentResult.metadata := Metadata.ofNotification xenditPayment |}
  /\ Metadata.get "id" (Metadata.ofNotification xenditPayment)
     = Some (Metadata.Str (XenditCallbackRequest.id xenditPayment)).
Proof. split; reflexivity. Qed.

Section Resolver.

Variable ShopContext : Type.
Variable authorizedAsOwnerOnly : ShopContext -> bool.
Variable channelToken : ShopContext -> string.
Variable getOrderFromContext : ShopContext -> option OrderEntity.t.
Variable options : option XenditPluginOptions.t.
Variable findOne : ID -> option OrderEntity.t.

Abbreviation createXenditPayment :=
  (XenditResolver.createXenditPayment authorizedAsOwnerOnly channelToken
     getOrderFromContext options findOne).

(** X18.  The mutation creates an invoice only for a session authorized
    as owner only that has an active order: without that authorization it
    answers nothing and does not even ask for the active order; without
    an active order it answers nothing and the service is not called.
    The only error it can throw is the one of [createPayment]. *)
Theorem createXenditPayment_guards (ctx : ShopContext) :
  (authorizedAsOwnerOnly ctx = false ->
   createXenditPayment ctx = (inr None, []))
  /\ (authorizedAsOwnerOnly ctx = true -> getOrderFromContext ctx = None ->
      createXenditPayment ctx
      = (inr None, [XenditResolver.GetOrderFromContext ctx]))
  /\ (forall payment,
        fst (createXenditPayment ctx) = inr (Some payment)
        <-> (authorizedAsOwnerOnly ctx = true
             /\ exists sessionOrder,
                  getOrderFromContext ctx = Some sessionOrder
                  /\ fst (XenditInvoices.createPayment channelToken options
                            findOne ctx sessionOrder) = inr payment))
  /\ (forall e, fst (createXenditPayment ctx) = inl e ->
                e = Error "Error on Creating Xendit Payment").
Proof.
  unfold XenditResolver.createXenditPayment.
  destruct (authorizedAsOwnerOnly ctx).
  - destruct (getOrderFromContext ctx) as [sessionOrder|].
    + pose proof (createPayment_masks_errors ShopContext channelToken options
                    findOne ctx sessionOrder) as Hmask.
      destruct (XenditInvoices.createPayment channelToken options findOne ctx
                  sessionOrder) as [[cause|created] events] eqn:Hcreated;
        cbn [fst] in *.
      * split; [intros H; discriminate H|].
        split; [intros _ H; discriminate H|]. split.
        -- intros payment. split.
           ++ intros H. discriminate H.
           ++ intros (_ & s & [= <-] & H). rewrite Hcreated in H.
              discriminate H.
        -- intros e [= <-]. apply (Hmask cause). reflexivity.
      * split; [intros H; discriminate H|].
        split; [intros _ H; discriminate H|]. split.
        -- intros payment. split.
           ++ intros [= <-]. split; [reflexivity|]. exists sessionOrder.
              rewrite Hcreated. split; reflexivity.
           ++ intros (_ & s & [= <-] & H). rewrite Hcreated in H.
              injection H as <-. reflexivity.
        -- intros e H. discriminate H.
    + cbn [fst]. split; [intros H; discriminate H|].
      split; [intros _ _; reflexivity|]. split.
      * intros payment. split.
        -- intros H. discriminate H.
        -- intros (_ & s & H & _). discriminate H.
      * intros e H. discriminate H.
  - cbn [fst]. split; [intros _; reflexivity|].
    split; [intros H; discriminate H|]. split.
    + intros payment. split.
      * intros H. discriminate H.
      * intros (H & _). discriminate H.
    + intros e H. discriminate H.
Qed.

End Resolver.

(** ** The further properties at the concrete deployments *)

Lemma ok_only_after_payment_added_witness :
  exists xenditPayment order method settled,
    RequestWithRawBody.body Scenario.request = Some xenditPayment
    /\ findOneByCode
         (Scenario.store (Some (Scenario.order "ArrangingPayment"))
            Scenario.accepted Scenario.settled)
         "tenant1" (XenditCallbackRequest.external_id xenditPayment)
       = Some order
    /\ Webhook.resolvedMethod
         (Scenario.deployment None [Scenario.xenditMethod]
            (Some (Scenario.order "ArrangingPayment")) Scenario.accepted
            Scenario.settled)
         "tenant1" = Some method
    /\ addPaymentToOrder
         (Scenario.store (Some (Scenario.order "ArrangingPayment"))
            Scenario.accepted Scenario.settled)
         "tenant1" (Order.id order)
         (Webhook.paymentInput method xenditPayment) = PaymentAdded settled.
Proof.
  destruct
    (ok_only_after_payment_added string "XenditPlugin"
       (Scenario.deployment None [Scenario.xenditMethod]
          (Some (Scenario.order "ArrangingPayment")) Scenario.accepted
          Scenario.settled)
       (Some "anything") Scenario.request)
    as (p & o & m & s & Hb & Hf & Hm & Ha & _).
  - cbn. auto 12.
  - exists p, o, m, s.
    assert (Hp : p = Scenario.notification) by (injection Hb as <-; reflexivity).
    subst p. repeat split; assumption.
Defined.


Lemma silent_return_witness :
  exists before storeCall msg,
    snd (Webhook.handle "XenditPlugin"
           (Scenario.deployment (Some "xyz") [Scenario.xenditMethod]
              (Some (Scenario.order "Cancelled")) Scenario.refused
              Scenario.settled)
           (Some "xyz") Scenario.request)
    = (before ++ [storeCall; LoggerError msg "XenditPlugin"])%list
    /\ (isTransition storeCall = true \/ isAddPayment storeCall = true).
Proof.
  exact (silent_return string "XenditPlugin"
           (Scenario.deployment (Some "xyz") [Scenario.xenditMethod]
              (Some (Scenario.order "Cancelled")) Scenario.refused
              Scenario.settled)
           (Some "xyz") Scenario.request eq_refl eq_refl).
Defined.

Lemma verification_only_of_presented_token_witness :
  Some "abc" = Some "abc" /\ exists s, Some "abc" = Some s /\ s <> "".
Proof.
  apply (verification_only_of_presented_token string "XenditPlugin"
           (Scenario.deployment (Some "xyz") [Scenario.xenditMethod] None
              Scenario.accepted Scenario.settled)
           (Some "abc") Scenario.request (Some "abc")).
  cbn. left. reflexivity.
Defined.

Lemma missing_body_reaches_no_store_witness :
  orderStoreCalls
    (snd (Webhook.handle "XenditPlugin"
            (Scenario.deployment (Some "xyz") [Scenario.xenditMethod]
               (Some (Scenario.order "AddingItems")) Scenario.accepted
               Scenario.settled)
            (Some "xyz") Scenario.emptyRequest))
  = [].
Proof.
  exact (proj1
    (missing_body_reaches_no_store string "XenditPlugin"
       (Scenario.deployment (Some "xyz") [Scenario.xenditMethod]
          (Some (Scenario.order "AddingItems")) Scenario.accepted
          Scenario.settled)
       (Some "xyz") Scenario.emptyRequest eq_refl)).
Defined.

Lemma rejected_payment_is_logged_not_answered_witness :
  fst (Webhook.handle "XenditPlugin"
         (Scenario.deployment (Some "xyz") [Scenario.xenditMethod]
            (Some (Scenario.order "ArrangingPayment")) Scenario.accepted
            Scenario.declined)
         (Some "xyz") Scenario.request)
  = inr tt
  /\ responses
       (snd (Webhook.handle "XenditPlugin"
               (Scenario.deployment (Some "xyz") [Scenario.xenditMethod]
                  (Some (Scenario.order "ArrangingPayment")) Scenario.accepted
                  Scenario.declined)
               (Some "xyz") Scenario.request))
     = [].
Proof.
  destruct
    (rejected_payment_is_logged_not_answered string "XenditPlugin"
       (Scenario.methods [Scenario.xenditMethod])
       (Scenario.store (Some (Scenario.order "ArrangingPayment"))
          Scenario.accepted Scenario.declined)
       Scenario.contexts (Scenario.options (Some "xyz")) (Some "xyz")
       Scenario.request Scenario.notification
       (Scenario.order "ArrangingPayment") Scenario.xenditMethod
       "PAYMENT_DECLINED_ERROR" "The payment was declined"
       eq_refl eq_refl eq_refl (or_introl eq_refl) eq_refl eq_refl)
    as (Hreturns & Hsilent & _).
  split; [exact Hreturns | exact Hsilent].
Defined.

Lemma context_is_created_from_description_witness :
  exists xenditPayment,
    RequestWithRawBody.body Scenario.request = Some xenditPayment
    /\ CreateArgs.channelOrToken
         (Webhook.createArgs Scenario.request Scenario.notification)
       = "tenant1".
Proof.
  destruct
    (context_is_created_from_description string "XenditPlugin"
       (Scenario.deployment (Some "xyz") [Scenario.xenditMethod] None
          Scenario.accepted Scenario.settled)
       (Some "xyz") Scenario.request
       (Webhook.createArgs Scenario.request Scenario.notification))
    as (p & Hb & _ & _ & _ & _ & _ & _ & _).
  - cbn. auto 8.
  - exists p. split; [exact Hb | reflexivity].
Defined.

Lemma createPayment_invoice_duration_witness :
  exists o,
    Storefront.options (Some 0%Z) None = Some o
    /\ InvoicePayload.invoice_duration
         (InvoiceRequest.payload Storefront.invoice) <> 0%Z.
Proof.
  destruct
    (createPayment_invoice_duration (string * bool) Storefront.channelToken
       (Storefront.options (Some 0%Z) None)
       (Storefront.repository (Some (Storefront.customer "payer@example.com")))
       ("tenant1", true)
       (Storefront.activeOrder (Some (Storefront.customer "payer@example.com")))
       Storefront.invoice _ eq_refl)
    as (o & Ho & Hd & _).
  exists o. split; [exact Ho | exact Hd].
Defined.

Lemma createPayment_credentials_witness :
  exists o,
    Storefront.options None None = Some o
    /\ InvoiceRequest.username Storefront.invoice = XenditPluginOptions.apiKey o.
Proof.
  destruct
    (createPayment_credentials (string * bool) Storefront.channelToken
       (Storefront.options None None)
       (Storefront.repository (Some (Storefront.customer "payer@example.com")))
       ("tenant1", true)
       (Storefront.activeOrder None)
       Storefront.invoice _ eq_refl)
    as (o & Ho & _ & Hu & _).
  exists o. split; [exact Ho | exact Hu].
Defined.

Lemma invoice_notification_round_trip_witness :
  CreateArgs.channelOrToken
    (Webhook.createArgs Storefront.echoRequest
       (Storefront.echo Storefront.payload))
  = "tenant1"
  /\ In (FindOneByCode "tenant1" "ORD123")
        (snd (Webhook.handle "XenditPlugin"
                (Scenario.deployment (Some "xyz") [Scenario.xenditMethod]
                   (Some (Scenario.order "AddingItems")) Scenario.accepted
                   Scenario.settled)
                (Some "xyz") Storefront.echoRequest)).
Proof.
  exact
    (invoice_notification_round_trip (string * bool) Storefront.channelToken
       (Storefront.options None None)
       (Storefront.repository (Some (Storefront.customer "payer@example.com")))
       string "XenditPlugin"
       (Scenario.deployment (Some "xyz") [Scenario.xenditMethod]
          (Some (Scenario.order "AddingItems")) Scenario.accepted
          Scenario.settled)
       ("tenant1", true)
       (Storefront.activeOrder None)
       Storefront.invoice _ (Some "xyz") Storefront.echoRequest
       (Storefront.echo Storefront.payload)
       (Js.Boolean false)
       eq_refl eq_refl eq_refl eq_refl eq_refl eq_refl eq_refl).
Defined.

